(** * Premium tax credit reconciliation (Form 8962, tax year 2022)

    A shallow embedding of [income_tax/custom_types.py],
    [income_tax/models/data_models.py] and [income_tax/models/year2022.py].

    Conventions of the embedding:
    - a Python [int] is a [Z];
    - a Python [float] is an IEEE-754 binary64 value, a [spec_float] with
      precision 53 and maximal exponent 1024, and the arithmetic on it is
      the correctly rounded arithmetic of [SpecFloat];
    - a [WholeDollar] field is a float that holds the whole number left by
      [make_whole_number]; the embedding keeps that whole number as a [Z].
      Sums, differences and comparisons of whole dollars are then those of
      [Z], which agrees with the float arithmetic of the source as long as
      the amounts stay below 2^53 dollars.  Wherever the source leaves the
      whole numbers (the ratio to the poverty line, the product with the
      applicable figure, the division by twelve) the embedding goes through
      binary64;
    - a Python [str] is a [string] (the identifiers considered are ASCII);
    - a raised exception is the [Raise] case of [result]. *)

From Stdlib Require Import ZArith Lia Bool Ascii.
From Stdlib Require Import Floats.SpecFloat.
From stdpp Require Import gmap strings list fin_maps.

Open Scope Z_scope.

(** ** Exceptions *)

Inductive exn : Type :=
| ValidationError
| ValueError
| OverflowError
| ZeroDivisionError
| KeyError
| AttributeError
| AssertionError.

Inductive result (A : Type) : Type :=
| Ok (a : A)
| Raise (e : exn).

Arguments Ok {A} a.
Arguments Raise {A} e.

#[global] Instance result_ret : MRet result := fun _ a => Ok a.

#[global] Instance result_bind : MBind result := fun _ _ k r =>
  match r with
  | Ok a => k a
  | Raise e => Raise e
  end.

(** [assert cond] *)
Definition assert (cond : bool) : result unit :=
  if cond then Ok tt else Raise AssertionError.

(** ** Python floats *)

Module Float.

Definition prec : Z := 53.
Definition emax : Z := 1024.

(** [float(n)] for an int [n], rounded to nearest even. *)
Definition of_int (n : Z) : spec_float := binary_normalize prec emax n 0 false.

Definition mul : spec_float -> spec_float -> spec_float := SFmul prec emax.
Definition div : spec_float -> spec_float -> spec_float := SFdiv prec emax.
Definition leb : spec_float -> spec_float -> bool := SFleb.

Definition is_zero (x : spec_float) : bool :=
  match x with S754_zero _ => true | _ => false end.

(** [x / y] *)
Definition truediv (x y : spec_float) : result spec_float :=
  if is_zero y then Raise ZeroDivisionError else Ok (div x y).

(** The four-decimal literal [0.dddd], read as the binary64 value nearest
    to [k / 10000]. *)
Definition literal4 (k : Z) : spec_float := div (of_int k) (of_int 10000).

(** The exact value of a finite float, as a numerator over a power of two. *)
Definition ratio (x : spec_float) : option (Z * Z) :=
  match x with
  | S754_zero _ => Some (0, 1)
  | S754_finite s m e =>
      Some (if 0 <=? e then (cond_Zopp s (Zpos m * 2 ^ e), 1)
            else (cond_Zopp s (Zpos m), 2 ^ (- e)))
  | _ => None
  end.

(** [int(x)]: the digits after the point are dropped. *)
Definition to_int (x : spec_float) : result Z :=
  match x with
  | S754_zero _ => Ok 0
  | S754_finite s m e =>
      Ok (cond_Zopp s (if 0 <=? e then Zpos m * 2 ^ e else Zpos m / 2 ^ (- e)))
  | S754_infinity _ => Raise OverflowError
  | S754_nan => Raise ValueError
  end.

(** The integer nearest to [m / d] for [d > 0], a tie going to the even
    neighbour. *)
Definition round_half_even (m d : Z) : Z :=
  let q := m / d in
  match 2 * (m mod d) ?= d with
  | Lt => q
  | Gt => q + 1
  | Eq => if Z.even q then q else q + 1
  end.

(** [round(x, 0)]: a float again; NaN and the infinities round to
    themselves. *)
Definition round0 (x : spec_float) : spec_float :=
  match x with
  | S754_finite s m e =>
      if 0 <=? e then x
      else match round_half_even (Zpos m) (2 ^ (- e)) with
           | 0 => S754_zero s
           | n => of_int (cond_Zopp s n)
           end
  | _ => x
  end.

End Float.

(** ** custom_types.py *)

(** [make_whole_number(value)] is [int(value)]. *)
Definition make_whole_number (value : spec_float) : result Z :=
  Float.to_int value.

(** [SSN(Secret[str])] *)
Record SSN : Type := { secret_value : string }.

Definition get_secret_value (s : SSN) : string := secret_value s.

Definition _display (s : SSN) : string := "***-**-****".

(** ** data_models.py *)

Module StateOfResidenceEnum.

Inductive t : Type :=
| CONTIGUOUS_48_AND_DC
| ALASKA
| HAWAII.

#[global] Instance eq_dec : EqDecision t.
Proof. solve_decision. Defined.

End StateOfResidenceEnum.

(** Smallest and largest key of a dictionary ([min(d.keys())],
    [max(d.keys())], which raise [ValueError] on an empty one). *)
Definition extremum {A} (pick : Z -> Z -> Z) (d : gmap Z A) : result Z :=
  match (map_to_list d).*1 with
  | [] => Raise ValueError
  | k :: ks => Ok (foldl pick k ks)
  end.

Definition min_key {A} : gmap Z A -> result Z := extremum Z.min.
Definition max_key {A} : gmap Z A -> result Z := extremum Z.max.

(** [d[k]] *)
Definition getitem {A} (d : gmap Z A) (k : Z) : result A :=
  match d !! k with
  | Some v => Ok v
  | None => Raise KeyError
  end.

Module PovertyLineTable.

Record t : Type := {
  state_of_residence : StateOfResidenceEnum.t;
  values : gmap Z Z;
  additional_person_extra : Z
}.

Definition get_poverty_rate (self : t) (tax_family_size : Z) : result Z :=
  match values self !! tax_family_size with
  | Some v => Ok v
  | None =>
      largest_size ← max_key (values self);
      largest_value ← getitem (values self) largest_size;
      let additional_persons := tax_family_size - largest_size in
      let adder := additional_persons * additional_person_extra self in
      Ok (largest_value + adder)
  end.

End PovertyLineTable.

Module PovertyLines.

Definition t : Type := list PovertyLineTable.t.

Definition get_state_table (self : t) (state_of_residence : StateOfResidenceEnum.t)
  : result PovertyLineTable.t :=
  let filtered_list :=
    filter (fun table => PovertyLineTable.state_of_residence table = state_of_residence) self in
  match filtered_list with
  | [] => Raise ValueError
  | table :: [] => Ok table
  | _ :: _ :: _ => Raise ValueError
  end.

Definition get_poverty_rate (self : t) (state_of_residence : StateOfResidenceEnum.t)
  (tax_family_size : Z) : result Z :=
  table ← get_state_table self state_of_residence;
  PovertyLineTable.get_poverty_rate table tax_family_size.

End PovertyLines.

Definition CONTIGUOUS_48_AND_DC : gmap Z Z :=
  list_to_map [(1, 13590); (2, 18310); (3, 23030); (4, 27750);
               (5, 32470); (6, 37190); (7, 41910); (8, 46630)].

Definition CONTIGUOUS_48_AND_DC_EXTRA : Z := 4720.

Definition ALASKA : gmap Z Z :=
  list_to_map [(1, 16990); (2, 22890); (3, 28790); (4, 34690);
               (5, 40590); (6, 46490); (7, 52390); (8, 58290)].

Definition ALASKA_EXTRA : Z := 5900.

Definition HAWAII : gmap Z Z :=
  list_to_map [(1, 15630); (2, 21060); (3, 26490); (4, 31920);
               (5, 37350); (6, 42780); (7, 48210); (8, 53640)].

Definition HAWAII_EXTRA : Z := 5430.

Definition poverty_lines : PovertyLines.t :=
  [ {| PovertyLineTable.state_of_residence := StateOfResidenceEnum.CONTIGUOUS_48_AND_DC;
       PovertyLineTable.values := CONTIGUOUS_48_AND_DC;
       PovertyLineTable.additional_person_extra := CONTIGUOUS_48_AND_DC_EXTRA |};
    {| PovertyLineTable.state_of_residence := StateOfResidenceEnum.ALASKA;
       PovertyLineTable.values := ALASKA;
       PovertyLineTable.additional_person_extra := ALASKA_EXTRA |};
    {| PovertyLineTable.state_of_residence := StateOfResidenceEnum.HAWAII;
       PovertyLineTable.values := HAWAII;
       PovertyLineTable.additional_person_extra := HAWAII_EXTRA |} ].

(** The literals of [applicable_figures_dict], each figure [0.dddd] written
    as its four digits. *)
Definition applicable_figures_digits : list (Z * Z) :=
  [
    (150, 0); (151, 4); (152, 8); (153, 12); (154, 16); (155, 20);
    (156, 24); (157, 28); (158, 32); (159, 36); (160, 40); (161, 44);
    (162, 48); (163, 52); (164, 56); (165, 60); (166, 64); (167, 68);
    (168, 72); (169, 76); (170, 80); (171, 84); (172, 88); (173, 92);
    (174, 96); (175, 100); (176, 104); (177, 108); (178, 112); (179, 116);
    (180, 120); (181, 124); (182, 128); (183, 132); (184, 136); (185, 140);
    (186, 144); (187, 148); (188, 152); (189, 156); (190, 160); (191, 164);
    (192, 168); (193, 172); (194, 176); (195, 180); (196, 184); (197, 188);
    (198, 192); (199, 196); (200, 200); (201, 204); (202, 208); (203, 212);
    (204, 216); (205, 220); (206, 224); (207, 228); (208, 232); (209, 236);
    (210, 240); (211, 244); (212, 248); (213, 252); (214, 256); (215, 260);
    (216, 264); (217, 268); (218, 272); (219, 276); (220, 280); (221, 284);
    (222, 288); (223, 292); (224, 296); (225, 300); (226, 304); (227, 308);
    (228, 312); (229, 316); (230, 320); (231, 324); (232, 328); (233, 332);
    (234, 336); (235, 340); (236, 344); (237, 348); (238, 352); (239, 356);
    (240, 360); (241, 364); (242, 368); (243, 372); (244, 376); (245, 380);
    (246, 384); (247, 388); (248, 392); (249, 396); (250, 400); (251, 404);
    (252, 408); (253, 412); (254, 416); (255, 420); (256, 424); (257, 428);
    (258, 432); (259, 436); (260, 440); (261, 444); (262, 448); (263, 452);
    (264, 456); (265, 460); (266, 464); (267, 468); (268, 472); (269, 476);
    (270, 480); (271, 484); (272, 488); (273, 492); (274, 496); (275, 500);
    (276, 504); (277, 508); (278, 512); (279, 516); (280, 520); (281, 524);
    (282, 528); (283, 532); (284, 536); (285, 540); (286, 544); (287, 548);
    (288, 552); (289, 556); (290, 560); (291, 564); (292, 568); (293, 572);
    (294, 576); (295, 580); (296, 584); (297, 588); (298, 592); (299, 596);
    (300, 600); (301, 603); (302, 605); (303, 608); (304, 610); (305, 613);
    (306, 615); (307, 618); (308, 620); (309, 623); (310, 625); (311, 628);
    (312, 630); (313, 633); (314, 635); (315, 638); (316, 640); (317, 643);
    (318, 645); (319, 648); (320, 650); (321, 653); (322, 655); (323, 658);
    (324, 660); (325, 663); (326, 665); (327, 668); (328, 670); (329, 673);
    (330, 675); (331, 678); (332, 680); (333, 683); (334, 685); (335, 688);
    (336, 690); (337, 693); (338, 695); (339, 698); (340, 700); (341, 703);
    (342, 705); (343, 708); (344, 710); (345, 713); (346, 715); (347, 718);
    (348, 720); (349, 723); (350, 725); (351, 728); (352, 730); (353, 733);
    (354, 735); (355, 738); (356, 740); (357, 743); (358, 745); (359, 748);
    (360, 750); (361, 753); (362, 755); (363, 758); (364, 760); (365, 763);
    (366, 765); (367, 768); (368, 770); (369, 773); (370, 775); (371, 778);
    (372, 780); (373, 783); (374, 785); (375, 788); (376, 790); (377, 793);
    (378, 795); (379, 798); (380, 800); (381, 803); (382, 805); (383, 808);
    (384, 810); (385, 813); (386, 815); (387, 818); (388, 820); (389, 823);
    (390, 825); (391, 828); (392, 830); (393, 833); (394, 835); (395, 838);
    (396, 840); (397, 843); (398, 845); (399, 848); (400, 850)  ].

Definition applicable_figures_dict : gmap Z spec_float :=
  list_to_map (prod_map id Float.literal4 <$> applicable_figures_digits).

Module ApplicableFigures.

Record t : Type := { figures : gmap Z spec_float }.

Definition get_figure (self : t) (percent : Z) : result spec_float :=
  min_percent ← min_key (figures self);
  max_percent ← max_key (figures self);
  if percent <=? min_percent then getitem (figures self) min_percent
  else if max_percent <? percent then getitem (figures self) max_percent
  else getitem (figures self) percent.

End ApplicableFigures.

Definition applicable_figures : ApplicableFigures.t :=
  {| ApplicableFigures.figures := applicable_figures_dict |}.

(** ** year2022.py *)

Module MonthlyCalculationRow.

Record t : Type := {
  a : Z;  (* monthly premiums *)
  b : Z;  (* monthly applicable SLCSP premium *)
  c : Z;  (* from 8b *)
  f : Z   (* monthly advance payment *)
}.

(** Lines 12-23(d). *)
Definition monthly_max_premium_assist (self : t) : Z :=
  let assistance := b self - c self in
  if 0 <? assistance then assistance else 0.

(** Lines 12-23(e). *)
Definition monthly_allowed_tax_credit (self : t) : Z :=
  Z.min (a self) (monthly_max_premium_assist self).

End MonthlyCalculationRow.

Module MonthlyCalculationTable.

(** A field of the model was either left at its default, [None], or was
    given explicitly, be it a row or [None]; the fields given explicitly
    make up [model_fields_set]. *)
Inductive slot : Type :=
| Default
| Given (v : option MonthlyCalculationRow.t).

Record t : Type := {
  january : slot;
  february : slot;
  march : slot;
  april : slot;
  may : slot;
  june : slot;
  july : slot;
  august : slot;
  september : slot;
  october : slot;
  november : slot;
  december : slot
}.

(** The names of the fields. *)
Inductive field : Type :=
| January | February | March | April | May | June
| July | August | September | October | November | December.

#[global] Instance field_eq_dec : EqDecision field.
Proof. solve_decision. Defined.

(** [model_fields], in the order of declaration. *)
Definition model_fields : list field :=
  [January; February; March; April; May; June;
   July; August; September; October; November; December].

Definition slot_of (self : t) (fld : field) : slot :=
  match fld with
  | January => january self | February => february self
  | March => march self | April => april self
  | May => may self | June => june self
  | July => july self | August => august self
  | September => september self | October => october self
  | November => november self | December => december self
  end.

(** [getattr(self, field)] *)
Definition getattr (self : t) (fld : field) : option MonthlyCalculationRow.t :=
  match slot_of self fld with
  | Default => None
  | Given v => v
  end.

Definition in_fields_set (self : t) (fld : field) : bool :=
  match slot_of self fld with
  | Default => false
  | Given _ => true
  end.

(** [visit] is an order in which the set [model_fields_set] may be
    iterated. *)
Definition iterates_fields_set (self : t) (visit : list field) : Prop :=
  NoDup visit /\ forall fld, fld ∈ visit <-> in_fields_set self fld = true.

(** The loop over [model_fields]; the [print] in its body is left out. *)
Definition total_tax_credit (self : t) : Z :=
  foldl (fun credit_sum fld =>
           match getattr self fld with
           | None => credit_sum
           | Some field_value =>
               credit_sum + MonthlyCalculationRow.monthly_allowed_tax_credit field_value
           end)
        0 model_fields.

(** One turn of the loop of [total_advance_payment]: [field_value.f] of a
    field that holds [None] raises [AttributeError]. *)
Definition add_advance (self : t) (acc : result Z) (fld : field) : result Z :=
  advance_sum ← acc;
  match getattr self fld with
  | None => Raise AttributeError
  | Some field_value => Ok (advance_sum + MonthlyCalculationRow.f field_value)
  end.

(** The loop of [total_advance_payment], run over the fields set in the
    order [visit]. *)
Definition total_advance_payment_in (visit : list field) (self : t) : result Z :=
  foldl (add_advance self) (Ok 0) visit.

Definition total_advance_payment (self : t) : result Z :=
  total_advance_payment_in (filter (fun fld => in_fields_set self fld = true) model_fields) self.

End MonthlyCalculationTable.

(** The pattern [^\d{3}-\d{2}-\d{4}$|^\d{9}$] under [re.match]. *)
Module SsnPattern.

Definition is_digit (ch : Ascii.ascii) : bool :=
  let n := Ascii.N_of_ascii ch in ((48 <=? n) && (n <=? 57))%N.

(** [\d{n}] *)
Fixpoint digits (n : nat) (s : string) : option string :=
  match n with
  | O => Some s
  | S n' =>
      match s with
      | String ch rest => if is_digit ch then digits n' rest else None
      | EmptyString => None
      end
  end.

(** [-] *)
Definition dash (s : string) : option string :=
  match s with
  | String ch rest => if Ascii.eqb ch "-"%char then Some rest else None
  | EmptyString => None
  end.

(** [$]: the end of the string, or the newline that ends it. *)
Definition at_end (s : string) : bool :=
  match s with
  | EmptyString => true
  | String ch EmptyString => Ascii.eqb ch "010"%char
  | _ => false
  end.

Definition dashed (s : string) : bool :=
  match (s1 ← digits 3 s; s2 ← dash s1; s3 ← digits 2 s2; s4 ← dash s3;
         digits 4 s4) with
  | Some rest => at_end rest
  | None => false
  end.

Definition plain (s : string) : bool :=
  match digits 9 s with
  | Some rest => at_end rest
  | None => false
  end.

Definition matches (s : string) : bool := dashed s || plain s.

End SsnPattern.

Module Form8962.

Record t : Type := {
  name_on_return : string;
  ssn : SSN;
  tax_family_size : Z;
  modified_agi : Z;
  dependents_modified_agi : option Z;
  state_of_residence : StateOfResidenceEnum.t;
  another_taxpayer_or_alternative_calculation : bool;
  line_10 : bool;
  annual_enrollment_premiums : option Z;
  annual_slcsp_premium : option Z;
  annual_advance_payment : option Z;
  monthly_calculation : option MonthlyCalculationTable.t
}.

Definition validate_ssn_pattern (value : SSN) : result SSN :=
  if SsnPattern.matches (get_secret_value value) then Ok value
  else Raise ValueError.

Definition household_income (self : t) : Z :=
  let income := modified_agi self in
  match dependents_modified_agi self with
  | None => income
  | Some d => income + d
  end.

Definition poverty_line (self : t) : result Z :=
  PovertyLines.get_poverty_rate poverty_lines
    (state_of_residence self) (tax_family_size self).

Definition percent_of_poverty_line (self : t) : result Z :=
  line ← poverty_line self;
  percentage ← Float.truediv (Float.of_int (household_income self)) (Float.of_int line);
  if Float.leb percentage (Float.of_int 4)
  then make_whole_number (Float.mul percentage (Float.of_int 100))
  else Ok 401.

Definition applicable_figure (self : t) : result spec_float :=
  percent ← percent_of_poverty_line self;
  ApplicableFigures.get_figure applicable_figures percent.

(** Line 8a. *)
Definition annual_contribution (self : t) : result Z :=
  figure ← applicable_figure self;
  Float.to_int (Float.round0 (Float.mul (Float.of_int (household_income self)) figure)).

(** Line 8b. *)
Definition monthly_contribution (self : t) : result Z :=
  annual ← annual_contribution self;
  quotient ← Float.truediv (Float.of_int annual) (Float.of_int 12);
  Float.to_int (Float.round0 quotient).

Definition line_11_c (self : t) : result (option Z) :=
  if line_10 self then
    contribution ← annual_contribution self;
    Ok (Some contribution)
  else Ok None.

(** Line 11(d). *)
Definition annual_max_premium_assist (self : t) : result (option Z) :=
  if line_10 self then
    contribution ← line_11_c self;
    _ ← assert (bool_decide (is_Some contribution));
    _ ← assert (bool_decide (is_Some (annual_slcsp_premium self)));
    match contribution, annual_slcsp_premium self with
    | Some c, Some premium =>
        let assistance := c - premium in
        Ok (Some (if 0 <? assistance then assistance else 0))
    | _, _ => Raise AssertionError
    end
  else Ok None.

(** Line 11(e). *)
Definition annual_allowed_tax_credit (self : t) : result (option Z) :=
  if line_10 self then
    _ ← assert (bool_decide (is_Some (annual_enrollment_premiums self)));
    assist ← annual_max_premium_assist self;
    _ ← assert (bool_decide (is_Some assist));
    match annual_enrollment_premiums self, assist with
    | Some premiums, Some d => Ok (Some (Z.min premiums d))
    | _, _ => Raise AssertionError
    end
  else Ok None.

(** Part II, Line 24. *)
Definition total_tax_credit (self : t) : result Z :=
  credit ← annual_allowed_tax_credit self;
  match credit with
  | None =>
      match monthly_calculation self with
      | None => Raise AssertionError
      | Some table => Ok (MonthlyCalculationTable.total_tax_credit table)
      end
  | Some v => Ok v
  end.

(** Part II, Line 25. *)
Definition total_advance_payment (self : t) : result Z :=
  match annual_advance_payment self with
  | None =>
      match monthly_calculation self with
      | None => Raise AssertionError
      | Some table => MonthlyCalculationTable.total_advance_payment table
      end
  | Some v => Ok v
  end.

Definition net_tax_credit (self : t) : result (option Z) :=
  credit ← total_tax_credit self;
  advance ← total_advance_payment self;
  if advance <? credit then Ok (Some (credit - advance))
  else if credit =? advance then Ok (Some 0)
  else Ok None.

(** *** Construction

    The keyword arguments of [Form8962(...)], the amounts as they are
    passed, before [make_whole_number]. *)
Record kwargs : Type := {
  kw_name_on_return : string;
  kw_ssn : string;
  kw_tax_family_size : Z;
  kw_modified_agi : spec_float;
  kw_dependents_modified_agi : option spec_float;
  kw_state_of_residence : StateOfResidenceEnum.t;
  kw_another_taxpayer_or_alternative_calculation : bool;
  kw_line_10 : bool;
  kw_annual_enrollment_premiums : option spec_float;
  kw_annual_slcsp_premium : option spec_float;
  kw_annual_advance_payment : option spec_float;
  kw_monthly_calculation : option MonthlyCalculationTable.t
}.

(** A [ValueError] or an [AssertionError] raised by the validator of a
    field is recorded, to be reported once all fields have been seen; any
    other exception leaves the construction at once. *)
Definition collect {A} (r : result A) (placeholder : A) : result (A * bool) :=
  match r with
  | Ok v => Ok (v, false)
  | Raise ValueError | Raise AssertionError => Ok (placeholder, true)
  | Raise e => Raise e
  end.

(** A field [WholeDollar | None]. *)
Definition optional_whole_dollar (value : option spec_float) : result (option Z) :=
  match value with
  | None => Ok None
  | Some v => whole ← make_whole_number v; Ok (Some whole)
  end.

(** The call [Form8962(...)] with these arguments. *)
Definition init (kw : kwargs) : result t :=
  let given := {| secret_value := kw_ssn kw |} in
  '(ssn_, e1) ← collect (validate_ssn_pattern given) given;
  '(agi, e2) ← collect (make_whole_number (kw_modified_agi kw)) 0;
  '(dependents, e3) ← collect (optional_whole_dollar (kw_dependents_modified_agi kw)) None;
  '(premiums, e4) ← collect (optional_whole_dollar (kw_annual_enrollment_premiums kw)) None;
  '(slcsp, e5) ← collect (optional_whole_dollar (kw_annual_slcsp_premium kw)) None;
  '(advance, e6) ← collect (optional_whole_dollar (kw_annual_advance_payment kw)) None;
  if e1 || e2 || e3 || e4 || e5 || e6 then Raise ValidationError
  else Ok {| name_on_return := kw_name_on_return kw;
             ssn := ssn_;
             tax_family_size := kw_tax_family_size kw;
             modified_agi := agi;
             dependents_modified_agi := dependents;
             state_of_residence := kw_state_of_residence kw;
             another_taxpayer_or_alternative_calculation :=
               kw_another_taxpayer_or_alternative_calculation kw;
             line_10 := kw_line_10 kw;
             annual_enrollment_premiums := premiums;
             annual_slcsp_premium := slcsp;
             annual_advance_payment := advance;
             monthly_calculation := kw_monthly_calculation kw |}.

End Form8962.

(** ** Forms and tables used as examples *)

Definition no_months : MonthlyCalculationTable.t := {|
  MonthlyCalculationTable.january := MonthlyCalculationTable.Default;
  MonthlyCalculationTable.february := MonthlyCalculationTable.Default;
  MonthlyCalculationTable.march := MonthlyCalculationTable.Default;
  MonthlyCalculationTable.april := MonthlyCalculationTable.Default;
  MonthlyCalculationTable.may := MonthlyCalculationTable.Default;
  MonthlyCalculationTable.june := MonthlyCalculationTable.Default;
  MonthlyCalculationTable.july := MonthlyCalculationTable.Default;
  MonthlyCalculationTable.august := MonthlyCalculationTable.Default;
  MonthlyCalculationTable.september := MonthlyCalculationTable.Default;
  MonthlyCalculationTable.october := MonthlyCalculationTable.Default;
  MonthlyCalculationTable.november := MonthlyCalculationTable.Default;
  MonthlyCalculationTable.december := MonthlyCalculationTable.Default |}.

(** [MonthlyCalculationTable(january=..., february=...)] *)
Definition january_february (jan feb : MonthlyCalculationTable.slot)
  : MonthlyCalculationTable.t := {|
  MonthlyCalculationTable.january := jan;
  MonthlyCalculationTable.february := feb;
  MonthlyCalculationTable.march := MonthlyCalculationTable.Default;
  MonthlyCalculationTable.april := MonthlyCalculationTable.Default;
  MonthlyCalculationTable.may := MonthlyCalculationTable.Default;
  MonthlyCalculationTable.june := MonthlyCalculationTable.Default;
  MonthlyCalculationTable.july := MonthlyCalculationTable.Default;
  MonthlyCalculationTable.august := MonthlyCalculationTable.Default;
  MonthlyCalculationTable.september := MonthlyCalculationTable.Default;
  MonthlyCalculationTable.october := MonthlyCalculationTable.Default;
  MonthlyCalculationTable.november := MonthlyCalculationTable.Default;
  MonthlyCalculationTable.december := MonthlyCalculationTable.Default |}.

Definition row (a b c f : Z) : MonthlyCalculationRow.t :=
  {| MonthlyCalculationRow.a := a; MonthlyCalculationRow.b := b;
     MonthlyCalculationRow.c := c; MonthlyCalculationRow.f := f |}.

(** A form on the monthly path unless [line_10] is set, with the annual
    premiums left out. *)
Definition form_of (tax_family_size : Z) (state_of_residence : StateOfResidenceEnum.t)
  (modified_agi : Z) (line_10 : bool) (annual_advance_payment : option Z)
  (monthly_calculation : option MonthlyCalculationTable.t) : Form8962.t := {|
  Form8962.name_on_return := "Karl Wooster";
  Form8962.ssn := {| secret_value := "123-45-6789" |};
  Form8962.tax_family_size := tax_family_size;
  Form8962.modified_agi := modified_agi;
  Form8962.dependents_modified_agi := None;
  Form8962.state_of_residence := state_of_residence;
  Form8962.another_taxpayer_or_alternative_calculation := false;
  Form8962.line_10 := line_10;
  Form8962.annual_enrollment_premiums := None;
  Form8962.annual_slcsp_premium := None;
  Form8962.annual_advance_payment := annual_advance_payment;
  Form8962.monthly_calculation := monthly_calculation |}.

(** The form of the demonstration at the end of [year2022.py]. *)
Definition my_form : Form8962.t :=
  form_of 4 StateOfResidenceEnum.CONTIGUOUS_48_AND_DC 77194 false None None.

(** Monthly path, one month with an advance payment of 100, and an annual
    advance payment of 500 supplied as well. *)
Definition monthly_with_annual_advance : Form8962.t :=
  form_of 4 StateOfResidenceEnum.CONTIGUOUS_48_AND_DC 77194 false (Some 500)
    (Some (january_february (MonthlyCalculationTable.Given (Some (row 700 500 329 100)))
                            MonthlyCalculationTable.Default)).

(** One person in the contiguous states with an income of exactly 230
    percent of the poverty line: 31257 * 100 = 230 * 13590. *)
Definition exactly_230_percent : Form8962.t :=
  form_of 1 StateOfResidenceEnum.CONTIGUOUS_48_AND_DC 31257 false None None.



(** Arguments with a household of size 0, the annual path selected and
    none of the annual figures. *)
Definition size_zero_annual_missing : Form8962.kwargs := {|
  Form8962.kw_name_on_return := "Karl Wooster";
  Form8962.kw_ssn := "123-45-6789";
  Form8962.kw_tax_family_size := 0;
  Form8962.kw_modified_agi := Float.of_int 77194;
  Form8962.kw_dependents_modified_agi := None;
  Form8962.kw_state_of_residence := StateOfResidenceEnum.CONTIGUOUS_48_AND_DC;
  Form8962.kw_another_taxpayer_or_alternative_calculation := false;
  Form8962.kw_line_10 := true;
  Form8962.kw_annual_enrollment_premiums := None;
  Form8962.kw_annual_slcsp_premium := None;
  Form8962.kw_annual_advance_payment := None;
  Form8962.kw_monthly_calculation := None |}.

(** ** Notions used to state the properties *)



(** The rows of a table, in the order of the months. *)
Definition populated (table : MonthlyCalculationTable.t) : list MonthlyCalculationRow.t :=
  omap (MonthlyCalculationTable.getattr table) MonthlyCalculationTable.model_fields.



(** [math.isfinite(x)] *)
Definition is_finite (x : spec_float) : bool :=
  match x with
  | S754_zero _ | S754_finite _ _ _ => true
  | _ => false
  end.

Definition all_finite (kw : Form8962.kwargs) : bool :=
  is_finite (Form8962.kw_modified_agi kw)
  && from_option is_finite true (Form8962.kw_dependents_modified_agi kw)
  && from_option is_finite true (Form8962.kw_annual_enrollment_premiums kw)
  && from_option is_finite true (Form8962.kw_annual_slcsp_premium kw)
  && from_option is_finite true (Form8962.kw_annual_advance_payment kw).

(** Arguments with another identifier, written without dashes. *)
Definition plain_identifier : Form8962.kwargs := {|
  Form8962.kw_name_on_return := "Karl Wooster";
  Form8962.kw_ssn := "987654321";
  Form8962.kw_tax_family_size := 0;
  Form8962.kw_modified_agi := Float.of_int 77194;
  Form8962.kw_dependents_modified_agi := None;
  Form8962.kw_state_of_residence := StateOfResidenceEnum.CONTIGUOUS_48_AND_DC;
  Form8962.kw_another_taxpayer_or_alternative_calculation := false;
  Form8962.kw_line_10 := true;
  Form8962.kw_annual_enrollment_premiums := None;
  Form8962.kw_annual_slcsp_premium := None;
  Form8962.kw_annual_advance_payment := None;
  Form8962.kw_monthly_calculation := None |}.

(** ** Notions used by the further properties *)

(** A float below zero. *)
Definition negative (x : spec_float) : bool :=
  match x with
  | S754_finite true _ _ | S754_infinity true => true
  | _ => false
  end.

(** Replaces the lookup of the largest tabulated size, 8, by its value. *)
Ltac at_largest_size :=
  match goal with
  | |- getitem ?d 8 ≫= _ = _ =>
      let r := eval vm_compute in (getitem d 8) in
      change (getitem d 8) with r; cbn;
      unfold CONTIGUOUS_48_AND_DC_EXTRA, ALASKA_EXTRA, HAWAII_EXTRA
  end.


(** A zero, or a finite float with a mantissa of at most 53 digits and an
    exponent of at most [bound]. *)
Definition bounded (bound : Z) (x : spec_float) : Prop :=
  match x with
  | S754_zero _ => True
  | S754_finite _ m e => Zpos m < 2 ^ 53 /\ e <= bound
  | _ => False
  end.

(** * Properties *)

(** ** The result monad *)

Lemma bind_Ok {A B} (r : result A) (k : A -> result B) (b : B) :
  r ≫= k = Ok b -> exists a, r = Ok a /\ k a = Ok b.
Proof. destruct r as [a|e]; [eauto | discriminate]. Qed.

(** ** Rounding to the nearest integer *)


Lemma round_half_even_bounds (m d : Z) :
  0 <= m -> 0 < d -> 0 <= Float.round_half_even m d <= m / d + 1.
Proof.
  intros Hm Hd. unfold Float.round_half_even.
  pose proof (Z.div_pos m d Hm Hd).
  destruct (2 * (m mod d) ?= d); [destruct (Z.even _)|..]; lia.
Qed.




(** ** Binary64 *)

Lemma digits2_pos_bounds (p : positive) :
  2 ^ (Zpos (digits2_pos p) - 1) <= Zpos p < 2 ^ Zpos (digits2_pos p).
Proof.
  induction p as [p IH|p IH|]; cbn [digits2_pos].
  - rewrite Pos2Z.inj_succ, (Pos2Z.inj_xI p).
    replace (Z.succ (Zpos (digits2_pos p)) - 1) with (Z.succ (Zpos (digits2_pos p) - 1)) by lia.
    rewrite !Z.pow_succ_r by lia. lia.
  - rewrite Pos2Z.inj_succ, (Pos2Z.inj_xO p).
    replace (Z.succ (Zpos (digits2_pos p)) - 1) with (Z.succ (Zpos (digits2_pos p) - 1)) by lia.
    rewrite !Z.pow_succ_r by lia. lia.
  - simpl. lia.
Qed.

Lemma Zdigits2_bound (m : Z) : 0 <= m -> m < 2 ^ Zdigits2 m.
Proof.
  destruct m as [|p|p]; simpl; [lia| |lia].
  intros _. apply digits2_pos_bounds.
Qed.

Lemma Zdigits2_nonneg (m : Z) : 0 <= Zdigits2 m.
Proof. destruct m; simpl; lia. Qed.

Lemma digits2_pos_le (p : positive) (k : Z) :
  Zpos p < 2 ^ k -> Zpos (digits2_pos p) <= k.
Proof.
  intros Hlt. destruct (Z.le_gt_cases (Zpos (digits2_pos p)) k) as [|Hgt]; [done|].
  pose proof (digits2_pos_bounds p) as [Hlow _].
  assert (0 <= k).
  { destruct (Z.le_gt_cases 0 k); [done|]. rewrite Z.pow_neg_r in Hlt by lia. lia. }
  assert (2 ^ k <= 2 ^ (Zpos (digits2_pos p) - 1)) by (apply Z.pow_le_mono_r; lia).
  lia.
Qed.

Lemma iter_xO_spec (p k : positive) :
  Zpos (Pos.iter xO p k) = Zpos p * 2 ^ Zpos k /\
  digits2_pos (Pos.iter xO p k) = (digits2_pos p + k)%positive.
Proof.
  induction k as [|k IH] using Pos.peano_ind.
  - simpl. split; lia.
  - rewrite Pos.iter_succ. destruct IH as [IHv IHd]. split.
    + rewrite (Pos2Z.inj_xO (Pos.iter xO p k)), IHv, Pos2Z.inj_succ, Z.pow_succ_r by lia. lia.
    + cbn [digits2_pos]. rewrite IHd. lia.
Qed.

Lemma fexp_small (e : Z) :
  -1021 <= e -> fexp Float.prec Float.emax e = e - 53.
Proof. unfold fexp, emin, Float.prec, Float.emax. lia. Qed.

Lemma fexp_ge (e : Z) : e - 53 <= fexp Float.prec Float.emax e.
Proof. unfold fexp, emin, Float.prec, Float.emax. lia. Qed.

(** A mantissa of 53 digits with an exponent in range is left as it is. *)
Lemma binary_round_aux_exact (s : bool) (mz : positive) (ez : Z) :
  digits2_pos mz = 53%positive -> -1074 <= ez <= 971 ->
  binary_round_aux Float.prec Float.emax s (Zpos mz) ez loc_Exact = S754_finite s mz ez.
Proof.
  intros Hd Hez.
  assert (shr_fexp Float.prec Float.emax (Zpos mz) ez loc_Exact
          = ({| shr_m := Zpos mz; shr_r := false; shr_s := false |}, ez)) as Hshr.
  { unfold shr_fexp. cbn [Zdigits2 shr_record_of_loc]. rewrite Hd.
    rewrite fexp_small by lia.
    replace (53 + ez - 53 - ez) with 0 by lia. reflexivity. }
  unfold binary_round_aux. rewrite Hshr.
  cbn [shr_m loc_of_shr_record round_nearest_even]. rewrite Hshr. cbn [shr_m].
  unfold Float.emax, Float.prec.
  destruct (Z.leb_spec ez (1024 - 53)); [reflexivity|lia].
Qed.

(** [float(n)] is exact below 2^53, and [int] gives [n] back. *)
Lemma to_int_of_int (s : bool) (n : Z) :
  0 < n < 2 ^ 53 ->
  Float.to_int (Float.of_int (cond_Zopp s n)) = Ok (cond_Zopp s n).
Proof.
  intros [Hpos Hlt]. destruct n as [|p|p]; try lia.
  assert (Float.of_int (cond_Zopp s (Zpos p)) = binary_round Float.prec Float.emax s p 0) as ->
    by (by destruct s).
  pose proof (digits2_pos_le p 53 Hlt) as Hd.
  unfold binary_round. rewrite Z.add_0_r, fexp_small by lia.
  unfold shl_align.
  destruct (Zpos (digits2_pos p) - 53 - 0) as [|k|k] eqn:Hk; try lia.
  - rewrite binary_round_aux_exact by lia.
    unfold Float.to_int. rewrite Z.leb_refl, Z.pow_0_r, Z.mul_1_r. reflexivity.
  - destruct (iter_xO_spec p k) as [Hv Hdig].
    rewrite binary_round_aux_exact by lia.
    unfold Float.to_int.
    destruct (Z.leb_spec 0 (Zpos (digits2_pos p) - 53)) as [|_]; [lia|].
    f_equal. f_equal. rewrite Hv.
    replace (- (Zpos (digits2_pos p) - 53)) with (Zpos k) by lia.
    apply Z.div_mul. lia.
Qed.

Lemma shr_1_m (mrs : shr_record) :
  0 <= shr_m mrs -> shr_m (shr_1 mrs) = shr_m mrs / 2.
Proof.
  rewrite <- Z.div2_div.
  destruct mrs as [m r s]. destruct m as [|[p|p|]|p]; simpl; intros; try lia; reflexivity.
Qed.

Lemma iter_shr_1_m (p : positive) (mrs : shr_record) :
  0 <= shr_m mrs ->
  shr_m (SpecFloat.iter_pos shr_1 p mrs) = shr_m mrs / 2 ^ Zpos p.
Proof.
  revert mrs. induction p as [p IH|p IH|]; intros mrs Hm; cbn [SpecFloat.iter_pos].
  - assert (0 <= shr_m (shr_1 mrs)) as H1
      by (rewrite shr_1_m by done; apply Z.div_pos; lia).
    assert (0 <= shr_m (SpecFloat.iter_pos shr_1 p (shr_1 mrs))) as H2
      by (rewrite IH by done; apply Z.div_pos; lia).
    rewrite IH, IH, shr_1_m by done.
    rewrite !Z.div_div by lia. f_equal.
    rewrite (Pos2Z.inj_xI p), Z.pow_add_r, Z.pow_mul_r by lia.
    change (2 ^ 2) with 4. change (2 ^ 1) with 2.
    replace (4 ^ Zpos p) with (2 ^ Zpos p * 2 ^ Zpos p).
    + lia.
    + rewrite <- Z.pow_mul_l. reflexivity.
  - assert (0 <= shr_m (SpecFloat.iter_pos shr_1 p mrs)) as H2
      by (rewrite IH by done; apply Z.div_pos; lia).
    rewrite IH, IH by done.
    rewrite !Z.div_div by lia. f_equal.
    rewrite (Pos2Z.inj_xO p), Z.pow_mul_r by lia.
    change (2 ^ 2) with 4.
    rewrite <- Z.pow_mul_l. reflexivity.
  - rewrite shr_1_m by done. reflexivity.
Qed.

Lemma shr_record_of_loc_m (m : Z) (l : location) : shr_m (shr_record_of_loc m l) = m.
Proof. by destruct l as [|[]]. Qed.

(** After the shift that the format asks for, a mantissa has at most 53
    digits. *)
Lemma shr_fexp_m_bound (m e : Z) (l : location) :
  0 <= m ->
  0 <= shr_m (fst (shr_fexp Float.prec Float.emax m e l)) < 2 ^ 53.
Proof.
  intros Hm. unfold shr_fexp, shr.
  pose proof (fexp_ge (Zdigits2 m + e)) as Hfexp.
  pose proof (Zdigits2_bound m Hm) as Hdig.
  pose proof (Zdigits2_nonneg m) as Hnn.
  destruct (fexp Float.prec Float.emax (Zdigits2 m + e) - e) as [|p|p] eqn:Hn;
    cbn [fst]; rewrite ?iter_shr_1_m, shr_record_of_loc_m
      by (rewrite shr_record_of_loc_m; done).
  - split; [done|].
    assert (2 ^ Zdigits2 m <= 2 ^ 53) by (apply Z.pow_le_mono_r; lia). lia.
  - split; [apply Z.div_pos; lia|].
    apply Z.div_lt_upper_bound; [lia|].
    assert (2 ^ Zdigits2 m <= 2 ^ (Zpos p + 53)) by (apply Z.pow_le_mono_r; lia).
    rewrite Z.pow_add_r in * by lia. lia.
  - split; [done|].
    assert (2 ^ Zdigits2 m <= 2 ^ 53) by (apply Z.pow_le_mono_r; lia). lia.
Qed.

Lemma round_nearest_even_nonneg (m : Z) (l : location) :
  0 <= m -> 0 <= round_nearest_even m l.
Proof. destruct l as [|[]]; simpl; try destruct (Z.even m); lia. Qed.

(** The mantissa of a rounded result has at most 53 digits. *)
Lemma binary_round_aux_bound (s : bool) (mx ex : Z) (lx : location) s' m e :
  0 <= mx ->
  binary_round_aux Float.prec Float.emax s mx ex lx = S754_finite s' m e ->
  Zpos m < 2 ^ 53.
Proof.
  intros Hmx. unfold binary_round_aux.
  pose proof (shr_fexp_m_bound mx ex lx Hmx) as [H1 _].
  destruct (shr_fexp Float.prec Float.emax mx ex lx) as [mrs' e'].
  cbn [fst] in H1.
  pose proof (shr_fexp_m_bound
                (round_nearest_even (shr_m mrs') (loc_of_shr_record mrs')) e' loc_Exact
                (round_nearest_even_nonneg _ _ H1)) as [_ H2].
  destruct (shr_fexp Float.prec Float.emax _ e' loc_Exact) as [mrs'' e''].
  cbn [fst] in H2.
  destruct (shr_m mrs'') as [|q|q]; try discriminate.
  destruct (e'' <=? Float.emax - Float.prec); [|discriminate].
  intros [= _ <- _]. done.
Qed.


Lemma div_mantissa (x y : spec_float) s m e :
  Float.div x y = S754_finite s m e -> Zpos m < 2 ^ 53.
Proof.
  unfold Float.div.
  destruct x as [| | |sx mx ex], y as [| | |sy my ey]; try discriminate.
  cbn [SFdiv]. unfold SFdiv_core_binary.
  set (shift := ex - ey - _).
  set (m' := match shift with Z0 => _ | Zpos _ => _ | Zneg _ => _ end).
  assert (0 <= m') as Hm'.
  { subst m'. destruct shift; [lia| |lia]. apply Z.shiftl_nonneg. lia. }
  pose proof (Z.div_pos m' (Zpos my) Hm' ltac:(lia)) as Hq.
  unfold Z.div in Hq. destruct (Z.div_eucl m' (Zpos my)) as [q r].
  apply binary_round_aux_bound. done.
Qed.


(** ** The poverty line *)

Lemma max_key_poverty_lines table :
  table ∈ poverty_lines -> max_key (PovertyLineTable.values table) = Ok 8.
Proof.
  unfold poverty_lines. rewrite !elem_of_cons, elem_of_nil.
  intros [->|[->|[->|[]]]]; reflexivity.
Qed.

Lemma get_state_table_poverty_lines state :
  exists table,
    PovertyLines.get_state_table poverty_lines state = Ok table /\
    table ∈ poverty_lines /\
    PovertyLineTable.state_of_residence table = state.
Proof.
  destruct state; eexists; (split; [reflexivity|]); split; try reflexivity;
    unfold poverty_lines; set_solver.
Qed.

Lemma values_poverty_lines table n :
  table ∈ poverty_lines ->
  (1 <= n <= 8 -> is_Some (PovertyLineTable.values table !! n)) /\
  (8 < n -> PovertyLineTable.values table !! n = None).
Proof.
  unfold poverty_lines. rewrite !elem_of_cons, elem_of_nil.
  intros Htable. split.
  - intros Hn.
    assert (n = 1 \/ n = 2 \/ n = 3 \/ n = 4 \/ n = 5 \/ n = 6 \/ n = 7 \/ n = 8)
      as Hcases by lia.
    destruct Htable as [->|[->|[->|[]]]];
      repeat (destruct Hcases as [->|Hcases]; [by eexists|]); subst n; by eexists.
  - intros Hn.
    destruct Htable as [->|[->|[->|[]]]]; simpl;
      apply not_elem_of_list_to_map_1; simpl;
      rewrite !elem_of_cons, elem_of_nil; lia.
Qed.



(** ** The applicable figure *)

Lemma applicable_figures_bounds :
  min_key applicable_figures_dict = Ok 150 /\
  max_key applicable_figures_dict = Ok 400.
Proof. split; vm_compute; reflexivity. Qed.

Lemma applicable_figures_digits_NoDup : NoDup applicable_figures_digits.*1.
Proof. apply (bool_decide_unpack _). vm_compute. reflexivity. Qed.

Lemma applicable_figures_dict_lookup percent digits :
  (percent, digits) ∈ applicable_figures_digits ->
  applicable_figures_dict !! percent = Some (Float.literal4 digits).
Proof.
  intros Hin. unfold applicable_figures_dict.
  apply elem_of_list_to_map_1.
  - rewrite <- list_fmap_compose.
    erewrite list_fmap_ext; [apply applicable_figures_digits_NoDup|].
    by intros ? [].
  - apply list_elem_of_fmap. by exists (percent, digits).
Qed.

Lemma applicable_figures_digits_dense percent :
  150 <= percent <= 400 ->
  exists digits, (percent, digits) ∈ applicable_figures_digits.
Proof.
  intros Hrange.
  assert (Forall (fun p => p ∈ applicable_figures_digits.*1) (seqZ 150 251)) as Hall.
  { apply (bool_decide_unpack _). vm_compute. reflexivity. }
  rewrite Forall_forall in Hall.
  specialize (Hall percent).
  rewrite elem_of_seqZ in Hall.
  destruct (proj1 (list_elem_of_fmap _ _ _) (Hall ltac:(lia))) as ([p d] & -> & Hin).
  by exists d.
Qed.

(** C9: the keys of the table of applicable figures run from 150 to 400;
    a percentage of at most 150 gets the figure 0.0000 of the key 150, a
    percentage above 400, such as 401, gets the figure 0.0850 of the key
    400, and a percentage in between gets the figure entered under that very
    percentage. *)
Theorem get_figure_clamps (percent : Z) :
  min_key applicable_figures_dict = Ok 150 /\
  max_key applicable_figures_dict = Ok 400 /\
  (percent <= 150 ->
     ApplicableFigures.get_figure applicable_figures percent = Ok (Float.literal4 0)) /\
  (400 < percent ->
     ApplicableFigures.get_figure applicable_figures percent = Ok (Float.literal4 850)) /\
  (150 < percent <= 400 ->
     ApplicableFigures.get_figure applicable_figures percent
     = getitem applicable_figures_dict percent /\
     exists digits,
       (percent, digits) ∈ applicable_figures_digits /\
       ApplicableFigures.get_figure applicable_figures percent
       = Ok (Float.literal4 digits)).
Proof.
  destruct applicable_figures_bounds as [Hmin Hmax].
  assert (forall p, ApplicableFigures.get_figure applicable_figures p
            = if p <=? 150 then getitem applicable_figures_dict 150
              else if 400 <? p then getitem applicable_figures_dict 400
              else getitem applicable_figures_dict p) as Hget.
  { intros p. unfold ApplicableFigures.get_figure, applicable_figures.
    cbn [ApplicableFigures.figures]. rewrite Hmin, Hmax. reflexivity. }
  split; [exact Hmin|]. split; [exact Hmax|].
  split; [|split; [|intros Hrange; split]].
  - intros Hle. rewrite Hget.
    destruct (Z.leb_spec percent 150); [|lia].
    unfold getitem. rewrite (applicable_figures_dict_lookup 150 0); [reflexivity|].
    apply (bool_decide_unpack _). vm_compute. reflexivity.
  - intros Hgt. rewrite Hget.
    destruct (Z.leb_spec percent 150); [lia|].
    destruct (Z.ltb_spec 400 percent); [|lia].
    unfold getitem. rewrite (applicable_figures_dict_lookup 400 850); [reflexivity|].
    apply (bool_decide_unpack _). vm_compute. reflexivity.
  - rewrite Hget.
    destruct (Z.leb_spec percent 150); [lia|].
    destruct (Z.ltb_spec 400 percent); [lia|]. reflexivity.
  - destruct (applicable_figures_digits_dense percent) as [digits Hin]; [lia|].
    exists digits. split; [exact Hin|]. rewrite Hget.
    destruct (Z.leb_spec percent 150); [lia|].
    destruct (Z.ltb_spec 400 percent); [lia|].
    unfold getitem. rewrite (applicable_figures_dict_lookup _ _ Hin). reflexivity.
Qed.

Lemma get_figure_clamps_witness :
  ApplicableFigures.get_figure applicable_figures 0 = Ok (Float.literal4 0) /\
  ApplicableFigures.get_figure applicable_figures 401 = Ok (Float.literal4 850) /\
  ApplicableFigures.get_figure applicable_figures 278
  = getitem applicable_figures_dict 278.
Proof.
  split; [|split].
  - apply (get_figure_clamps 0). lia.
  - apply (get_figure_clamps 401). lia.
  - apply (get_figure_clamps 278). lia.
Defined.

(** ** The end-to-end scenario *)

(** C1: a form with tax family size 4, residency in the contiguous states
    and DC, modified AGI 77194 and no dependents' AGI has poverty line
    27750, percent of poverty line 278, applicable figure 0.0512, annual
    contribution 3952 and monthly contribution 329. *)
Theorem end_to_end_scenario (form : Form8962.t) :
  Form8962.tax_family_size form = 4 ->
  Form8962.state_of_residence form = StateOfResidenceEnum.CONTIGUOUS_48_AND_DC ->
  Form8962.modified_agi form = 77194 ->
  Form8962.dependents_modified_agi form = None ->
  Form8962.poverty_line form = Ok 27750 /\
  Form8962.percent_of_poverty_line form = Ok 278 /\
  Form8962.applicable_figure form = Ok (Float.literal4 512) /\
  Form8962.annual_contribution form = Ok 3952 /\
  Form8962.monthly_contribution form = Ok 329.
Proof.
  destruct form; simpl; intros -> -> -> ->.
  vm_compute. repeat split.
Qed.

Lemma end_to_end_scenario_witness :
  Form8962.poverty_line my_form = Ok 27750 /\
  Form8962.percent_of_poverty_line my_form = Ok 278 /\
  Form8962.applicable_figure my_form = Ok (Float.literal4 512) /\
  Form8962.annual_contribution my_form = Ok 3952 /\
  Form8962.monthly_contribution my_form = Ok 329.
Proof. apply (end_to_end_scenario my_form); reflexivity. Defined.

(** ** The percentage of the poverty line *)

(** C4: on the form [exactly_230_percent] the household income 31257 is
    exactly 2.30 times the poverty line 13590, yet the percentage computed
    is 229, and with it the applicable figure is 0.0316, that of 229
    percent, and not 0.0320. *)
Theorem percent_of_poverty_line_at_230 :
  Form8962.poverty_line exactly_230_percent = Ok 13590 /\
  Form8962.household_income exactly_230_percent * 100 = 230 * 13590 /\
  Form8962.percent_of_poverty_line exactly_230_percent = Ok 229 /\
  Form8962.applicable_figure exactly_230_percent = Ok (Float.literal4 316) /\
  ApplicableFigures.get_figure applicable_figures 230 = Ok (Float.literal4 320).
Proof. vm_compute. repeat split. Qed.

(** ** The contributions *)



(** ** The totals of the monthly table *)





Section AdvancePayment.

Variable table : MonthlyCalculationTable.t.

Lemma add_advance_Raise e visit :
  foldl (MonthlyCalculationTable.add_advance table) (Raise e) visit = Raise e.
Proof using Type. induction visit; simpl; auto. Qed.

Lemma add_advance_comm acc x y :
  MonthlyCalculationTable.add_advance table
    (MonthlyCalculationTable.add_advance table acc x) y
  = MonthlyCalculationTable.add_advance table
      (MonthlyCalculationTable.add_advance table acc y) x.
Proof using Type.
  unfold MonthlyCalculationTable.add_advance. destruct acc as [z|e]; simpl; [|done].
  destruct (MonthlyCalculationTable.getattr table x),
           (MonthlyCalculationTable.getattr table y); simpl; try done.
  f_equal. lia.
Qed.

(** The order in which the fields set is visited does not matter. *)
Lemma total_advance_payment_in_Permutation visit1 visit2 :
  visit1 ≡ₚ visit2 ->
  MonthlyCalculationTable.total_advance_payment_in visit1 table
  = MonthlyCalculationTable.total_advance_payment_in visit2 table.
Proof using Type.
  unfold MonthlyCalculationTable.total_advance_payment_in.
  generalize (Ok 0 : result Z).
  intros acc Hperm. revert acc.
  induction Hperm as [|x l1 l2 _ IH|x y l|l1 l2 l3 _ IH1 _ IH2]; intros acc; simpl.
  - done.
  - apply IH.
  - by rewrite add_advance_comm.
  - by rewrite IH1.
Qed.

Lemma iterates_fields_set_canonical visit :
  MonthlyCalculationTable.iterates_fields_set table visit ->
  visit ≡ₚ filter (fun fld => MonthlyCalculationTable.in_fields_set table fld = true)
             MonthlyCalculationTable.model_fields.
Proof using Type.
  intros [Hnodup Hin]. apply NoDup_Permutation; [done| |].
  - apply NoDup_filter. unfold MonthlyCalculationTable.model_fields.
    by apply (bool_decide_unpack _).
  - intros fld. rewrite Hin, list_elem_of_filter.
    split; [|tauto]. intros H; split; [done|].
    clear. by destruct fld; apply (bool_decide_unpack _).
Qed.

Lemma total_advance_payment_any_order visit :
  MonthlyCalculationTable.iterates_fields_set table visit ->
  MonthlyCalculationTable.total_advance_payment_in visit table
  = MonthlyCalculationTable.total_advance_payment table.
Proof using Type.
  intros H. apply total_advance_payment_in_Permutation.
  by apply iterates_fields_set_canonical.
Qed.




End AdvancePayment.

(** A table without any row totals zero. *)
Lemma empty_table_totals :
  MonthlyCalculationTable.total_tax_credit no_months = 0 /\
  MonthlyCalculationTable.total_advance_payment no_months = Ok 0.
Proof. split; reflexivity. Qed.

(** C7: a table built with [january=None] has no row and its total tax
    credit is 0, but reading its total advance payment raises
    [AttributeError], in whatever order the fields set is visited; the same
    happens when a row is there as well. *)
Theorem total_advance_payment_explicit_none :
  let table := january_february (MonthlyCalculationTable.Given None)
                                MonthlyCalculationTable.Default in
  let mixed := january_february (MonthlyCalculationTable.Given (Some (row 700 500 329 100)))
                                (MonthlyCalculationTable.Given None) in
  populated table = [] /\
  MonthlyCalculationTable.total_tax_credit table = 0 /\
  MonthlyCalculationTable.total_advance_payment table = Raise AttributeError /\
  (forall visit, MonthlyCalculationTable.iterates_fields_set table visit ->
     MonthlyCalculationTable.total_advance_payment_in visit table = Raise AttributeError) /\
  populated mixed = [row 700 500 329 100] /\
  MonthlyCalculationTable.total_advance_payment mixed = Raise AttributeError.
Proof.
  intros table mixed. repeat split.
  intros visit Hvisit. by rewrite total_advance_payment_any_order.
Qed.

(** ** The two totals on the monthly path *)

Lemma monthly_path_total_tax_credit (form : Form8962.t) table :
  Form8962.line_10 form = false ->
  Form8962.monthly_calculation form = Some table ->
  Form8962.total_tax_credit form = Ok (MonthlyCalculationTable.total_tax_credit table).
Proof.
  intros Hline Htable.
  unfold Form8962.total_tax_credit, Form8962.annual_allowed_tax_credit.
  rewrite Hline. simpl. by rewrite Htable.
Qed.

Lemma monthly_path_total_advance_payment (form : Form8962.t) table :
  Form8962.monthly_calculation form = Some table ->
  Form8962.total_advance_payment form =
    match Form8962.annual_advance_payment form with
    | Some annual => Ok annual
    | None => MonthlyCalculationTable.total_advance_payment table
    end.
Proof.
  intros Htable. unfold Form8962.total_advance_payment.
  destruct (Form8962.annual_advance_payment form); [done|]. by rewrite Htable.
Qed.

(** C2: on the form [monthly_with_annual_advance], whose [line_10] is false
    and whose monthly table holds one advance payment of 100, the total tax
    credit is the table's, but the total advance payment is the annual
    figure 500 that was supplied as well, not the table's total of 100. *)
Theorem monthly_path_ignored_by_total_advance_payment :
  exists table,
    Form8962.line_10 monthly_with_annual_advance = false /\
    Form8962.monthly_calculation monthly_with_annual_advance = Some table /\
    Form8962.total_tax_credit monthly_with_annual_advance =
      Ok (MonthlyCalculationTable.total_tax_credit table) /\
    MonthlyCalculationTable.total_advance_payment table = Ok 100 /\
    Form8962.total_advance_payment monthly_with_annual_advance = Ok 500.
Proof. eexists. repeat split. Qed.

(** ** The net result *)



(** ** Construction of a form *)

Lemma collect_Ok_false {A} (r : result A) (placeholder v : A) :
  Form8962.collect r placeholder = Ok (v, false) -> r = Ok v.
Proof. destruct r as [a|[]]; simpl; congruence. Qed.

Lemma validate_ssn_pattern_Ok given s :
  Form8962.validate_ssn_pattern given = Ok s ->
  SsnPattern.matches (get_secret_value given) = true /\ s = given.
Proof.
  unfold Form8962.validate_ssn_pattern.
  destruct (SsnPattern.matches _); [|discriminate]. intros [= <-]. done.
Qed.

(** What a successful construction tells about the arguments. *)
Lemma init_Ok kw form :
  Form8962.init kw = Ok form ->
  SsnPattern.matches (Form8962.kw_ssn kw) = true /\
  Form8962.ssn form = {| secret_value := Form8962.kw_ssn kw |} /\
  Form8962.tax_family_size form = Form8962.kw_tax_family_size kw /\
  Form8962.line_10 form = Form8962.kw_line_10 kw /\
  make_whole_number (Form8962.kw_modified_agi kw) = Ok (Form8962.modified_agi form).
Proof.
  unfold Form8962.init. intros H.
  apply bind_Ok in H as ([s e1] & H1 & H).
  apply bind_Ok in H as ([agi e2] & H2 & H).
  apply bind_Ok in H as ([dep e3] & H3 & H).
  apply bind_Ok in H as ([pre e4] & H4 & H).
  apply bind_Ok in H as ([slc e5] & H5 & H).
  apply bind_Ok in H as ([adv e6] & H6 & H).
  destruct e1; [discriminate|]. destruct e2; [discriminate|].
  destruct (false || false || e3 || e4 || e5 || e6); [discriminate|].
  injection H as <-. cbn.
  apply collect_Ok_false, validate_ssn_pattern_Ok in H1 as [Hm ->].
  apply collect_Ok_false in H2. done.
Qed.

Lemma make_whole_number_finite x :
  is_finite x = true -> exists z, make_whole_number x = Ok z.
Proof. destruct x; simpl; intros; try discriminate; eauto. Qed.

Lemma optional_whole_dollar_finite value :
  from_option is_finite true value = true ->
  exists whole, Form8962.optional_whole_dollar value = Ok whole /\
                (whole = None <-> value = None).
Proof.
  destruct value as [x|]; simpl.
  - intros [z Hz]%make_whole_number_finite.
    unfold Form8962.optional_whole_dollar. rewrite Hz. simpl.
    eexists; split; [done|]. split; discriminate.
  - intros _. by exists None.
Qed.

(** With a well-formed identifier and finite amounts the construction goes
    through, whatever the other arguments. *)
Lemma init_succeeds kw :
  SsnPattern.matches (Form8962.kw_ssn kw) = true ->
  all_finite kw = true ->
  exists form,
    Form8962.init kw = Ok form /\
    (Form8962.annual_enrollment_premiums form = None
     <-> Form8962.kw_annual_enrollment_premiums kw = None) /\
    (Form8962.annual_slcsp_premium form = None
     <-> Form8962.kw_annual_slcsp_premium kw = None) /\
    (Form8962.annual_advance_payment form = None
     <-> Form8962.kw_annual_advance_payment kw = None).
Proof.
  unfold all_finite. rewrite !andb_true_iff.
  intros Hm [[[[Hagi Hdep] Hpre] Hslc] Hadv].
  destruct (make_whole_number_finite _ Hagi) as [agi Eagi].
  destruct (optional_whole_dollar_finite _ Hdep) as (dep & Edep & _).
  destruct (optional_whole_dollar_finite _ Hpre) as (pre & Epre & Ipre).
  destruct (optional_whole_dollar_finite _ Hslc) as (slc & Eslc & Islc).
  destruct (optional_whole_dollar_finite _ Hadv) as (adv & Eadv & Iadv).
  unfold Form8962.init, Form8962.validate_ssn_pattern. cbn [get_secret_value secret_value].
  rewrite Hm, Eagi, Edep, Epre, Eslc, Eadv. cbn.
  eexists; split; [reflexivity|]. cbn. done.
Qed.

(** Reading the total tax credit on the annual path without the enrollment
    premiums or without the SLCSP premium raises an exception. *)
Lemma total_tax_credit_annual_missing form :
  Form8962.line_10 form = true ->
  Form8962.annual_enrollment_premiums form = None
  \/ Form8962.annual_slcsp_premium form = None ->
  exists e, Form8962.total_tax_credit form = Raise e.
Proof.
  intros Hline Hmissing.
  unfold Form8962.total_tax_credit, Form8962.annual_allowed_tax_credit,
    Form8962.annual_max_premium_assist, Form8962.line_11_c.
  rewrite Hline.
  destruct (Form8962.annual_enrollment_premiums form) as [premiums|];
    [|by eexists].
  destruct Hmissing as [|Hslcsp]; [done|]. rewrite Hslcsp.
  destruct (Form8962.annual_contribution form) as [contribution|e];
    by eexists.
Qed.

(** C5, as the code has it: the construction checks the identifier and
    turns the amounts into whole dollars, nothing else.  With a well-formed
    identifier and finite amounts it succeeds for every tax family size and
    whichever annual figures are there; on the annual path a missing
    enrollment premium or SLCSP premium shows only when the total tax
    credit is read, which raises an exception. *)
Theorem construction_checks_identifier_only (kw : Form8962.kwargs) :
  SsnPattern.matches (Form8962.kw_ssn kw) = true ->
  all_finite kw = true ->
  exists form,
    Form8962.init kw = Ok form /\
    Form8962.tax_family_size form = Form8962.kw_tax_family_size kw /\
    Form8962.line_10 form = Form8962.kw_line_10 kw /\
    (Form8962.annual_enrollment_premiums form = None
     <-> Form8962.kw_annual_enrollment_premiums kw = None) /\
    (Form8962.annual_slcsp_premium form = None
     <-> Form8962.kw_annual_slcsp_premium kw = None) /\
    (Form8962.annual_advance_payment form = None
     <-> Form8962.kw_annual_advance_payment kw = None) /\
    (Form8962.kw_line_10 kw = true ->
     Form8962.kw_annual_enrollment_premiums kw = None
     \/ Form8962.kw_annual_slcsp_premium kw = None ->
     exists e, Form8962.total_tax_credit form = Raise e).
Proof.
  intros Hm Hfinite.
  destruct (init_succeeds kw Hm Hfinite) as (form & Hinit & Hpre & Hslc & Hadv).
  destruct (init_Ok kw form Hinit) as (_ & _ & Hsize & Hline & _).
  exists form. repeat split; try tauto.
  intros Hannual Hmissing. apply total_tax_credit_annual_missing.
  - congruence.
  - tauto.
Qed.

Lemma construction_checks_identifier_only_witness :
  exists form,
    Form8962.init size_zero_annual_missing = Ok form /\
    Form8962.tax_family_size form = 0 /\
    exists e, Form8962.total_tax_credit form = Raise e.
Proof.
  destruct (construction_checks_identifier_only size_zero_annual_missing)
    as (form & Hinit & Hsize & _ & _ & _ & _ & Hraise); [reflexivity..|].
  exists form. split; [exact Hinit|]. split; [exact Hsize|].
  apply Hraise; [reflexivity|]. left. reflexivity.
Defined.

(** C5, as the claim has it, fails: the arguments
    [size_zero_annual_missing], with tax family size 0, the annual path
    selected and none of the three annual figures, make a form. *)
Lemma construction_accepts_size_zero_annual_missing :
  exists form,
    Form8962.init size_zero_annual_missing = Ok form /\
    Form8962.tax_family_size form < 1 /\
    Form8962.line_10 form = true /\
    Form8962.annual_enrollment_premiums form = None /\
    Form8962.annual_slcsp_premium form = None /\
    Form8962.annual_advance_payment form = None.
Proof. eexists. split; [reflexivity|]. cbn. repeat split. Qed.

(** ** The displayed identifier *)

(** C10: two forms that were constructed, whatever their identifiers,
    display the same string, the mask [***-**-****], and no character of
    it is a digit. *)
Theorem displayed_identifier_is_masked (kw1 kw2 : Form8962.kwargs)
  (form1 form2 : Form8962.t) :
  Form8962.init kw1 = Ok form1 ->
  Form8962.init kw2 = Ok form2 ->
  get_secret_value (Form8962.ssn form1) = Form8962.kw_ssn kw1 /\
  get_secret_value (Form8962.ssn form2) = Form8962.kw_ssn kw2 /\
  _display (Form8962.ssn form1) = "***-**-****" /\
  _display (Form8962.ssn form1) = _display (Form8962.ssn form2) /\
  (forall ch, ch ∈ String.list_ascii_of_string (_display (Form8962.ssn form1)) ->
     SsnPattern.is_digit ch = false).
Proof.
  intros (_ & Hssn1 & _)%init_Ok (_ & Hssn2 & _)%init_Ok.
  rewrite Hssn1, Hssn2. repeat split.
  intros ch. cbn. rewrite !elem_of_cons, elem_of_nil.
  intros H. repeat (destruct H as [->|H]; [reflexivity|]). destruct H.
Qed.

Lemma displayed_identifier_is_masked_witness :
  exists form1 form2,
    Form8962.init size_zero_annual_missing = Ok form1 /\
    Form8962.init plain_identifier = Ok form2 /\
    get_secret_value (Form8962.ssn form1) <> get_secret_value (Form8962.ssn form2) /\
    _display (Form8962.ssn form1) = _display (Form8962.ssn form2).
Proof.
  eexists _, _. split; [reflexivity|]. split; [reflexivity|]. split; [discriminate|].
  eapply (displayed_identifier_is_masked size_zero_annual_missing plain_identifier);
    reflexivity.
Defined.


(** * Further properties of the code *)

(** ** A row of the monthly table *)



(** ** The totals of the monthly table, continued *)









Lemma add_advance_hits_None table visit fld z :
  fld ∈ visit ->
  MonthlyCalculationTable.getattr table fld = None ->
  foldl (MonthlyCalculationTable.add_advance table) (Ok z) visit = Raise AttributeError.
Proof.
  intros Hin Hnone. revert z.
  induction visit as [|x visit IH]; intros z; [by apply elem_of_nil in Hin|].
  cbn [foldl].
  destruct (MonthlyCalculationTable.getattr table x) as [r|] eqn:Hx.
  - assert (MonthlyCalculationTable.add_advance table (Ok z) x
            = Ok (z + MonthlyCalculationRow.f r)) as ->
      by (unfold MonthlyCalculationTable.add_advance; simpl; by rewrite Hx).
    apply IH. apply elem_of_cons in Hin as [->|Hin]; [congruence|done].
  - assert (MonthlyCalculationTable.add_advance table (Ok z) x = Raise AttributeError) as ->
      by (unfold MonthlyCalculationTable.add_advance; simpl; by rewrite Hx).
    apply add_advance_Raise.
Qed.

Lemma total_advance_payment_hits_None table :
  (exists fld, MonthlyCalculationTable.slot_of table fld = MonthlyCalculationTable.Given None) ->
  MonthlyCalculationTable.total_advance_payment table = Raise AttributeError.
Proof.
  intros [fld Hfld].
  unfold MonthlyCalculationTable.total_advance_payment,
    MonthlyCalculationTable.total_advance_payment_in.
  apply (add_advance_hits_None table _ fld).
  - apply list_elem_of_filter. split.
    + unfold MonthlyCalculationTable.in_fields_set. by rewrite Hfld.
    + clear. by destruct fld; apply (bool_decide_unpack _).
  - unfold MonthlyCalculationTable.getattr. by rewrite Hfld.
Qed.



(** ** Dictionaries: the smallest and the largest key *)

Lemma foldl_max_spec (k : Z) (ks : list Z) :
  foldl Z.max k ks ∈ k :: ks /\ forall j, j ∈ k :: ks -> j <= foldl Z.max k ks.
Proof.
  revert k. induction ks as [|x ks IH]; intros k; cbn [foldl].
  - split; [apply elem_of_cons; by left|].
    intros j Hj. apply list_elem_of_singleton in Hj. lia.
  - destruct (IH (Z.max k x)) as [Hin Hle]. split.
    + apply elem_of_cons in Hin as [Heq|Hin].
      * rewrite Heq. destruct (Z.max_spec k x) as [[_ ->]|[_ ->]];
          repeat (apply elem_of_cons; first [by left|right]).
      * by do 2 (apply elem_of_cons; right).
    + intros j Hj.
      assert (j <= Z.max k x \/ j ∈ ks) as [Hj'|Hj'].
      { apply elem_of_cons in Hj as [->|Hj]; [left; lia|].
        apply elem_of_cons in Hj as [->|Hj]; [left; lia|by right]. }
      * pose proof (Hle (Z.max k x) ltac:(apply elem_of_cons; by left)). lia.
      * apply Hle. apply elem_of_cons. by right.
Qed.

Lemma foldl_min_spec (k : Z) (ks : list Z) :
  foldl Z.min k ks ∈ k :: ks /\ forall j, j ∈ k :: ks -> foldl Z.min k ks <= j.
Proof.
  revert k. induction ks as [|x ks IH]; intros k; cbn [foldl].
  - split; [apply elem_of_cons; by left|].
    intros j Hj. apply list_elem_of_singleton in Hj. lia.
  - destruct (IH (Z.min k x)) as [Hin Hle]. split.
    + apply elem_of_cons in Hin as [Heq|Hin].
      * rewrite Heq. destruct (Z.min_spec k x) as [[_ ->]|[_ ->]];
          repeat (apply elem_of_cons; first [by left|right]).
      * by do 2 (apply elem_of_cons; right).
    + intros j Hj.
      assert (Z.min k x <= j \/ j ∈ ks) as [Hj'|Hj'].
      { apply elem_of_cons in Hj as [->|Hj]; [left; lia|].
        apply elem_of_cons in Hj as [->|Hj]; [left; lia|by right]. }
      * pose proof (Hle (Z.min k x) ltac:(apply elem_of_cons; by left)). lia.
      * apply Hle. apply elem_of_cons. by right.
Qed.

Lemma elem_of_keys {A} (d : gmap Z A) (k : Z) :
  k ∈ (map_to_list d).*1 <-> is_Some (d !! k).
Proof.
  rewrite list_elem_of_fmap. split.
  - intros ([k' v] & -> & Hin). apply elem_of_map_to_list in Hin. by exists v.
  - intros [v Hv]. exists (k, v). split; [done|]. by apply elem_of_map_to_list.
Qed.

Lemma extremum_empty {A} (pick : Z -> Z -> Z) (d : gmap Z A) :
  d = ∅ -> extremum pick d = Raise ValueError.
Proof. intros ->. unfold extremum. by rewrite map_to_list_empty. Qed.

Lemma max_key_spec {A} (d : gmap Z A) :
  d <> ∅ ->
  exists k, max_key d = Ok k /\ is_Some (d !! k) /\
            forall j, is_Some (d !! j) -> j <= k.
Proof.
  intros Hne. unfold max_key, extremum.
  destruct ((map_to_list d).*1) as [|k ks] eqn:Hkeys.
  - apply fmap_nil_inv, map_to_list_empty_iff in Hkeys. done.
  - destruct (foldl_max_spec k ks) as [Hin Hle].
    eexists. split; [done|]. rewrite <- Hkeys in Hin, Hle. split.
    + by apply elem_of_keys.
    + intros j Hj. by apply Hle, elem_of_keys.
Qed.

Lemma min_key_spec {A} (d : gmap Z A) :
  d <> ∅ ->
  exists k, min_key d = Ok k /\ is_Some (d !! k) /\
            forall j, is_Some (d !! j) -> k <= j.
Proof.
  intros Hne. unfold min_key, extremum.
  destruct ((map_to_list d).*1) as [|k ks] eqn:Hkeys.
  - apply fmap_nil_inv, map_to_list_empty_iff in Hkeys. done.
  - destruct (foldl_min_spec k ks) as [Hin Hle].
    eexists. split; [done|]. rewrite <- Hkeys in Hin, Hle. split.
    + by apply elem_of_keys.
    + intros j Hj. by apply Hle, elem_of_keys.
Qed.

(** ** The poverty line tables, whatever they hold *)



(** X7: looking a category up in any registry returns the one table of
    that category, which belongs to the registry, exactly when there is one
    such table; with none or with several it raises [ValueError]. *)
Theorem get_state_table_cases (self : PovertyLines.t) (state : StateOfResidenceEnum.t) :
  (forall table,
     PovertyLines.get_state_table self state = Ok table <->
     filter (fun t => PovertyLineTable.state_of_residence t = state) self = [table]) /\
  (forall table,
     PovertyLines.get_state_table self state = Ok table ->
     table ∈ self /\ PovertyLineTable.state_of_residence table = state) /\
  (length (filter (fun t => PovertyLineTable.state_of_residence t = state) self) <> 1%nat ->
   PovertyLines.get_state_table self state = Raise ValueError).
Proof.
  unfold PovertyLines.get_state_table.
  assert (forall table,
            match filter (fun t => PovertyLineTable.state_of_residence t = state) self with
            | [] => Raise ValueError
            | [t] => Ok t
            | _ :: _ :: _ => Raise ValueError
            end = Ok table <->
            filter (fun t => PovertyLineTable.state_of_residence t = state) self = [table])
    as Hiff.
  { intros table.
    destruct (filter _ self) as [|t [|t' rest]]; split; intros H; try discriminate; congruence. }
  split; [exact Hiff|]. split.
  - intros table Htable%Hiff.
    assert (table ∈ filter (fun t => PovertyLineTable.state_of_residence t = state) self)
      as Hin by (rewrite Htable; apply elem_of_cons; by left).
    apply list_elem_of_filter in Hin. tauto.
  - destruct (filter _ self) as [|t [|t' rest]]; cbn; intros; done.
Qed.

Lemma get_state_table_cases_witness :
  PovertyLines.get_state_table (poverty_lines ++ poverty_lines) StateOfResidenceEnum.ALASKA
  = Raise ValueError /\
  PovertyLines.get_state_table [] StateOfResidenceEnum.ALASKA = Raise ValueError.
Proof.
  split.
  - apply (get_state_table_cases (poverty_lines ++ poverty_lines)).
    vm_compute. discriminate.
  - apply (get_state_table_cases []). vm_compute. discriminate.
Defined.

(** ** The poverty lines of 2022 *)

Lemma values_poverty_lines_below table n :
  table ∈ poverty_lines -> n < 1 -> PovertyLineTable.values table !! n = None.
Proof.
  unfold poverty_lines. rewrite !elem_of_cons, elem_of_nil.
  intros Htable Hn.
  destruct Htable as [->|[->|[->|[]]]]; simpl;
    apply not_elem_of_list_to_map_1; simpl;
    rewrite !elem_of_cons, elem_of_nil; lia.
Qed.

Lemma get_poverty_rate_linear (state : StateOfResidenceEnum.t) (n : Z) :
  PovertyLines.get_poverty_rate poverty_lines state n
  = Ok (match state with
        | StateOfResidenceEnum.CONTIGUOUS_48_AND_DC => 8870 + 4720 * n
        | StateOfResidenceEnum.ALASKA => 11090 + 5900 * n
        | StateOfResidenceEnum.HAWAII => 10200 + 5430 * n
        end).
Proof.
  destruct (get_state_table_poverty_lines state) as (table & Hget & Hin & Hstate).
  unfold PovertyLines.get_poverty_rate. rewrite Hget. cbn.
  unfold PovertyLineTable.get_poverty_rate.
  destruct (Z.lt_ge_cases n 1) as [Hlow|Hge1]; [|destruct (Z.le_gt_cases n 8) as [Hle8|Hhigh]].
  - rewrite (values_poverty_lines_below table n Hin Hlow).
    rewrite (max_key_poverty_lines table Hin). cbn.
    destruct state; injection Hget as <-; cbn; at_largest_size; f_equal; lia.
  - assert (n = 1 \/ n = 2 \/ n = 3 \/ n = 4 \/ n = 5 \/ n = 6 \/ n = 7 \/ n = 8)
      as Hcases by lia.
    destruct state; injection Hget as <-;
      repeat (destruct Hcases as [->|Hcases]; [reflexivity|]); subst n; reflexivity.
  - rewrite (proj2 (values_poverty_lines table n Hin) Hhigh).
    rewrite (max_key_poverty_lines table Hin). cbn.
    destruct state; injection Hget as <-; cbn; at_largest_size; f_equal; lia.
Qed.



(** ** The table of applicable figures, whatever it holds *)

(** X9: in any table of applicable figures a percentage at or below the
    smallest key gets the figure of the smallest key and a percentage above
    the largest key that of the largest key; a percentage in between is
    looked up as it is, which raises [KeyError] when the table has no such
    key; an empty table raises [ValueError]. *)
Theorem get_figure_cases (self : ApplicableFigures.t) (percent : Z) :
  (ApplicableFigures.figures self = ∅ ->
   ApplicableFigures.get_figure self percent = Raise ValueError) /\
  (ApplicableFigures.figures self <> ∅ ->
   exists min_percent max_percent at_min at_max,
     ApplicableFigures.figures self !! min_percent = Some at_min /\
     ApplicableFigures.figures self !! max_percent = Some at_max /\
     (forall key, is_Some (ApplicableFigures.figures self !! key) ->
        min_percent <= key <= max_percent) /\
     (percent <= min_percent -> ApplicableFigures.get_figure self percent = Ok at_min) /\
     (max_percent < percent -> ApplicableFigures.get_figure self percent = Ok at_max) /\
     (min_percent < percent <= max_percent ->
      forall figure, ApplicableFigures.figures self !! percent = Some figure ->
        ApplicableFigures.get_figure self percent = Ok figure) /\
     (min_percent < percent <= max_percent ->
      ApplicableFigures.figures self !! percent = None ->
      ApplicableFigures.get_figure self percent = Raise KeyError)).
Proof.
  unfold ApplicableFigures.get_figure. split.
  - intros ->. unfold min_key. by rewrite (extremum_empty (A:=spec_float) Z.min ∅ eq_refl).
  - intros Hne.
    destruct (min_key_spec _ Hne) as (lo & Hmin & [at_min Hlo] & Hle_lo).
    destruct (max_key_spec _ Hne) as (hi & Hmax & [at_max Hhi] & Hle_hi).
    exists lo, hi, at_min, at_max. rewrite Hmin, Hmax. cbn.
    assert (lo <= hi) by (apply Hle_hi; by exists at_min).
    split; [done|]. split; [done|]. split; [by auto|].
    unfold getitem. split; [|split; [|split]].
    + intros Hp. destruct (Z.leb_spec percent lo); [|lia]. by rewrite Hlo.
    + intros Hp. destruct (Z.leb_spec percent lo); [lia|].
      destruct (Z.ltb_spec hi percent); [|lia]. by rewrite Hhi.
    + intros Hp figure Hfigure. destruct (Z.leb_spec percent lo); [lia|].
      destruct (Z.ltb_spec hi percent); [lia|]. by rewrite Hfigure.
    + intros Hp Hnone. destruct (Z.leb_spec percent lo); [lia|].
      destruct (Z.ltb_spec hi percent); [lia|]. by rewrite Hnone.
Qed.

Lemma get_figure_cases_witness :
  ApplicableFigures.get_figure
    {| ApplicableFigures.figures :=
         {[ 150 := Float.literal4 0; 400 := Float.literal4 850 ]} |} 278
  = Raise KeyError.
Proof.
  destruct (proj2 (get_figure_cases
      {| ApplicableFigures.figures :=
           {[ 150 := Float.literal4 0; 400 := Float.literal4 850 ]} |} 278))
    as (lo & hi & at_min & at_max & Hlo & Hhi & Hkeys & _ & _ & _ & Hgap).
  - intros Hempty. apply (f_equal (fun d : gmap Z spec_float => d !! 150)) in Hempty.
    vm_compute in Hempty. discriminate Hempty.
  - apply Hgap; [|reflexivity].
    pose proof (Hkeys 150 ltac:(by eexists)).
    pose proof (Hkeys 400 ltac:(by eexists)).
    assert (lo = 150 \/ lo = 400) as [->| ->].
    { destruct (decide (lo = 150)) as [|Hne1]; [by left|right].
      destruct (decide (lo = 400)) as [|Hne2]; [done|].
      cbn in Hlo. rewrite lookup_insert_ne, lookup_singleton_ne in Hlo by done.
      discriminate. }
    + lia.
    + lia.
Defined.

(** ** The applicable figures of 2022 *)

Lemma get_figure_unfold (percent : Z) :
  ApplicableFigures.get_figure applicable_figures percent
  = getitem applicable_figures_dict (Z.max 150 (Z.min 400 percent)).
Proof.
  destruct applicable_figures_bounds as [Hmin Hmax].
  unfold ApplicableFigures.get_figure, applicable_figures.
  cbn [ApplicableFigures.figures]. rewrite Hmin, Hmax.
  change (Ok 150 ≫= ?k) with (k 150). cbv beta.
  change (Ok 400 ≫= ?k) with (k 400). cbv beta.
  destruct (Z.leb_spec percent 150).
  - replace (Z.max 150 (Z.min 400 percent)) with 150 by lia. reflexivity.
  - destruct (Z.ltb_spec 400 percent).
    + replace (Z.max 150 (Z.min 400 percent)) with 400 by lia. reflexivity.
    + replace (Z.max 150 (Z.min 400 percent)) with percent by lia. reflexivity.
Qed.

Lemma applicable_figures_sorted :
  let lowest := Float.literal4 0 in
  let highest := Float.literal4 850 in
  let entries := prod_map id Float.literal4 <$> applicable_figures_digits in
  forallb (fun '(p1, f1) =>
     forallb (fun '(p2, f2) =>
        implb (p1 <=? p2)
              (Float.leb f1 f2 && Float.leb lowest f1 && Float.leb f2 highest))
       entries)
    entries = true.
Proof. vm_compute. reflexivity. Qed.

(** X10: with the table of 2022 an applicable figure is found for every
    integer percentage, and a larger percentage never gets a smaller
    figure; the figures run from 0.0000 to 0.0850. *)
Theorem applicable_figure_monotone (percent1 percent2 : Z) :
  percent1 <= percent2 ->
  exists figure1 figure2,
    ApplicableFigures.get_figure applicable_figures percent1 = Ok figure1 /\
    ApplicableFigures.get_figure applicable_figures percent2 = Ok figure2 /\
    Float.leb figure1 figure2 = true /\
    Float.leb (Float.literal4 0) figure1 = true /\
    Float.leb figure2 (Float.literal4 850) = true.
Proof.
  intros Hle. rewrite !get_figure_unfold.
  set (p1 := Z.max 150 (Z.min 400 percent1)).
  set (p2 := Z.max 150 (Z.min 400 percent2)).
  destruct (applicable_figures_digits_dense p1) as [d1 Hd1]; [lia|].
  destruct (applicable_figures_digits_dense p2) as [d2 Hd2]; [lia|].
  exists (Float.literal4 d1), (Float.literal4 d2).
  unfold getitem.
  rewrite (applicable_figures_dict_lookup _ _ Hd1), (applicable_figures_dict_lookup _ _ Hd2).
  split; [reflexivity|]. split; [reflexivity|].
  pose proof applicable_figures_sorted as Hsorted. cbv zeta in Hsorted.
  assert (forall p d, (p, d) ∈ applicable_figures_digits ->
            In (p, Float.literal4 d) (prod_map id Float.literal4 <$> applicable_figures_digits))
    as Hentry.
  { intros p d Hin. apply list_elem_of_In, list_elem_of_fmap.
    exists (p, d). split; [reflexivity|exact Hin]. }
  rewrite forallb_forall in Hsorted.
  specialize (Hsorted _ (Hentry _ _ Hd1)). cbn beta iota in Hsorted.
  rewrite forallb_forall in Hsorted.
  specialize (Hsorted _ (Hentry _ _ Hd2)). cbn beta iota in Hsorted.
  assert ((p1 <=? p2) = true) as Hp by (apply Z.leb_le; lia).
  rewrite Hp in Hsorted. cbn [implb] in Hsorted.
  apply andb_true_iff in Hsorted as [Hsorted H850].
  apply andb_true_iff in Hsorted as [Hsorted H0].
  split; [exact Hsorted|]. split; [exact H0|exact H850].
Qed.

Lemma applicable_figure_monotone_witness :
  exists figure1 figure2,
    ApplicableFigures.get_figure applicable_figures 229 = Ok figure1 /\
    ApplicableFigures.get_figure applicable_figures 230 = Ok figure2 /\
    Float.leb figure1 figure2 = true /\
    Float.leb (Float.literal4 0) figure1 = true /\
    Float.leb figure2 (Float.literal4 850) = true.
Proof. apply (applicable_figure_monotone 229 230). lia. Defined.

(** ** Whole numbers *)

(** X11: [make_whole_number] raises [ValueError] on NaN and
    [OverflowError] on an infinity; on any other float it returns the
    value of the float with the digits after the point dropped, that is
    rounded towards zero, never up in magnitude. *)
Theorem make_whole_number_truncates (value : spec_float) :
  (value = S754_nan -> make_whole_number value = Raise ValueError) /\
  (forall s, value = S754_infinity s -> make_whole_number value = Raise OverflowError) /\
  (is_finite value = true ->
   exists num den,
     Float.ratio value = Some (num, den) /\ 0 < den /\
     make_whole_number value = Ok (num ÷ den)).
Proof.
  split; [by intros ->|]. split; [by intros s ->|].
  destruct value as [s| | |s m e]; try discriminate; intros _; cbn.
  - exists 0, 1. by repeat split.
  - destruct (Z.leb_spec 0 e) as [He|He].
    + eexists _, 1. split; [done|]. split; [lia|]. by rewrite Z.quot_1_r.
    + assert (0 < 2 ^ (- e)) as Hden by (apply Z.pow_pos_nonneg; lia).
      eexists _, _. split; [done|]. split; [done|]. f_equal.
      destruct s; cbn.
      * rewrite Z.quot_opp_l, Z.quot_div_nonneg by lia. reflexivity.
      * rewrite Z.quot_div_nonneg by lia. reflexivity.
Qed.

Lemma make_whole_number_truncates_witness :
  exists num den,
    Float.ratio (Float.div (Float.of_int (-4456)) (Float.of_int 100)) = Some (num, den) /\
    0 < den /\
    make_whole_number (Float.div (Float.of_int (-4456)) (Float.of_int 100))
    = Ok (num ÷ den) /\
    num ÷ den = -44.
Proof.
  destruct (proj2 (proj2 (make_whole_number_truncates
              (Float.div (Float.of_int (-4456)) (Float.of_int 100)))) eq_refl)
    as (num & den & Hratio & Hden & Hwhole).
  exists num, den. repeat split; try assumption.
  vm_compute in Hratio. injection Hratio as <- <-. reflexivity.
Defined.

(** X12: a whole number below 2^53 in magnitude that is turned into a
    float comes back unchanged from [make_whole_number]: an amount passed
    as an integer is kept as it is. *)
Theorem make_whole_number_of_int (n : Z) :
  Z.abs n < 2 ^ 53 -> make_whole_number (Float.of_int n) = Ok n.
Proof.
  intros Hn. unfold make_whole_number. destruct n as [|p|p].
  - reflexivity.
  - apply (to_int_of_int false (Zpos p)). lia.
  - apply (to_int_of_int true (Zpos p)). lia.
Qed.

Lemma make_whole_number_of_int_witness :
  make_whole_number (Float.of_int 77194) = Ok 77194.
Proof. apply make_whole_number_of_int. reflexivity. Defined.

(** ** The pattern of the identifier *)







(** ** The two paths of the form *)



(** X15: on the monthly path the three fields of line 11 read as [None]
    without raising, whatever annual figures are there; without a monthly
    table the total tax credit raises [AssertionError], and so does the net
    result. *)
Theorem monthly_path_without_table (form : Form8962.t) :
  Form8962.line_10 form = false ->
  Form8962.line_11_c form = Ok None /\
  Form8962.annual_max_premium_assist form = Ok None /\
  Form8962.annual_allowed_tax_credit form = Ok None /\
  (Form8962.monthly_calculation form = None ->
   Form8962.total_tax_credit form = Raise AssertionError /\
   Form8962.net_tax_credit form = Raise AssertionError /\
   (Form8962.annual_advance_payment form = None ->
    Form8962.total_advance_payment form = Raise AssertionError)).
Proof.
  intros Hline.
  assert (Form8962.annual_allowed_tax_credit form = Ok None) as Hcredit.
  { unfold Form8962.annual_allowed_tax_credit. by rewrite Hline. }
  split; [unfold Form8962.line_11_c; by rewrite Hline|].
  split; [unfold Form8962.annual_max_premium_assist; by rewrite Hline|].
  split; [done|]. intros Htable.
  assert (Form8962.total_tax_credit form = Raise AssertionError) as Htotal.
  { unfold Form8962.total_tax_credit. by rewrite Hcredit, Htable. }
  split; [done|]. split.
  - unfold Form8962.net_tax_credit. by rewrite Htotal.
  - intros Hadvance. unfold Form8962.total_advance_payment. by rewrite Hadvance, Htable.
Qed.

Lemma monthly_path_without_table_witness :
  Form8962.total_tax_credit my_form = Raise AssertionError /\
  Form8962.net_tax_credit my_form = Raise AssertionError /\
  Form8962.total_advance_payment my_form = Raise AssertionError.
Proof.
  destruct (monthly_path_without_table my_form eq_refl) as (_ & _ & _ & Hnone).
  destruct (Hnone eq_refl) as (Hcredit & Hnet & Hadvance).
  split; [exact Hcredit|]. split; [exact Hnet|]. exact (Hadvance eq_refl).
Defined.

(** X16: on the monthly path without an annual advance payment, a month
    passed as [None] in the table makes the net result raise
    [AttributeError], although the total tax credit is computed. *)
Theorem net_tax_credit_explicit_none (form : Form8962.t) (table : MonthlyCalculationTable.t) :
  Form8962.line_10 form = false ->
  Form8962.annual_advance_payment form = None ->
  Form8962.monthly_calculation form = Some table ->
  (exists fld, MonthlyCalculationTable.slot_of table fld = MonthlyCalculationTable.Given None) ->
  Form8962.total_tax_credit form = Ok (MonthlyCalculationTable.total_tax_credit table) /\
  Form8962.total_advance_payment form = Raise AttributeError /\
  Form8962.net_tax_credit form = Raise AttributeError.
Proof.
  intros Hline Hadvance Htable Hnone.
  pose proof (monthly_path_total_tax_credit form table Hline Htable) as Hcredit.
  assert (Form8962.total_advance_payment form = Raise AttributeError) as Hraise.
  { rewrite (monthly_path_total_advance_payment form table Htable), Hadvance.
    by apply total_advance_payment_hits_None. }
  split; [done|]. split; [done|].
  unfold Form8962.net_tax_credit. by rewrite Hcredit, Hraise.
Qed.

Lemma net_tax_credit_explicit_none_witness :
  Form8962.net_tax_credit
    (form_of 4 StateOfResidenceEnum.CONTIGUOUS_48_AND_DC 77194 false None
       (Some (january_february (MonthlyCalculationTable.Given (Some (row 700 500 329 100)))
                               (MonthlyCalculationTable.Given None))))
  = Raise AttributeError.
Proof.
  apply (net_tax_credit_explicit_none
           (form_of 4 StateOfResidenceEnum.CONTIGUOUS_48_AND_DC 77194 false None
              (Some (january_february
                       (MonthlyCalculationTable.Given (Some (row 700 500 329 100)))
                       (MonthlyCalculationTable.Given None))))
           (january_february (MonthlyCalculationTable.Given (Some (row 700 500 329 100)))
                             (MonthlyCalculationTable.Given None)));
    [reflexivity..|].
  by exists MonthlyCalculationTable.February.
Defined.

(** X17: the poverty line, the percentage, the applicable figure and the
    two contributions of a form depend on nothing but the tax family size,
    the residency and the household income: two forms that agree on these
    three agree on all five, whatever their names, identifiers, premiums
    and tables, and however the income is split between the filer and the
    dependents. *)
Theorem derivation_depends_on_three_inputs (form1 form2 : Form8962.t) :
  Form8962.tax_family_size form1 = Form8962.tax_family_size form2 ->
  Form8962.state_of_residence form1 = Form8962.state_of_residence form2 ->
  Form8962.household_income form1 = Form8962.household_income form2 ->
  Form8962.poverty_line form1 = Form8962.poverty_line form2 /\
  Form8962.percent_of_poverty_line form1 = Form8962.percent_of_poverty_line form2 /\
  Form8962.applicable_figure form1 = Form8962.applicable_figure form2 /\
  Form8962.annual_contribution form1 = Form8962.annual_contribution form2 /\
  Form8962.monthly_contribution form1 = Form8962.monthly_contribution form2.
Proof.
  intros Hsize Hstate Hincome.
  assert (Form8962.poverty_line form1 = Form8962.poverty_line form2) as Hline
    by (unfold Form8962.poverty_line; by rewrite Hsize, Hstate).
  assert (Form8962.percent_of_poverty_line form1 = Form8962.percent_of_poverty_line form2)
    as Hpercent by (unfold Form8962.percent_of_poverty_line; by rewrite Hline, Hincome).
  assert (Form8962.applicable_figure form1 = Form8962.applicable_figure form2) as Hfigure
    by (unfold Form8962.applicable_figure; by rewrite Hpercent).
  assert (Form8962.annual_contribution form1 = Form8962.annual_contribution form2) as Hannual
    by (unfold Form8962.annual_contribution; by rewrite Hfigure, Hincome).
  repeat split; try done.
  unfold Form8962.monthly_contribution. by rewrite Hannual.
Qed.

Lemma derivation_depends_on_three_inputs_witness :
  let split_income := {|
    Form8962.name_on_return := "Another name";
    Form8962.ssn := {| secret_value := "987654321" |};
    Form8962.tax_family_size := 4;
    Form8962.modified_agi := 70000;
    Form8962.dependents_modified_agi := Some 7194;
    Form8962.state_of_residence := StateOfResidenceEnum.CONTIGUOUS_48_AND_DC;
    Form8962.another_taxpayer_or_alternative_calculation := true;
    Form8962.line_10 := true;
    Form8962.annual_enrollment_premiums := Some 8400;
    Form8962.annual_slcsp_premium := None;
    Form8962.annual_advance_payment := None;
    Form8962.monthly_calculation := Some no_months |} in
  Form8962.monthly_contribution split_income = Form8962.monthly_contribution my_form.
Proof.
  intros split_income.
  apply (derivation_depends_on_three_inputs split_income my_form); reflexivity.
Defined.

(** ** Signs *)

Lemma binary_round_aux_sign (s : bool) (mx ex : Z) (lx : location) :
  0 <= mx ->
  match binary_round_aux Float.prec Float.emax s mx ex lx with
  | S754_zero s' | S754_infinity s' | S754_finite s' _ _ => s' = s
  | S754_nan => False
  end.
Proof.
  intros Hmx. unfold binary_round_aux.
  pose proof (shr_fexp_m_bound mx ex lx Hmx) as [H1 _].
  destruct (shr_fexp Float.prec Float.emax mx ex lx) as [mrs' e'].
  cbn [fst] in H1.
  pose proof (shr_fexp_m_bound
                (round_nearest_even (shr_m mrs') (loc_of_shr_record mrs')) e' loc_Exact
                (round_nearest_even_nonneg _ _ H1)) as [H2 _].
  destruct (shr_fexp Float.prec Float.emax _ e' loc_Exact) as [mrs'' e''].
  cbn [fst] in H2.
  destruct (shr_m mrs'') as [|q|q]; [done| |lia].
  by destruct (e'' <=? Float.emax - Float.prec).
Qed.

Lemma binary_round_aux_not_negative (mx ex : Z) (lx : location) :
  0 <= mx -> negative (binary_round_aux Float.prec Float.emax false mx ex lx) = false.
Proof.
  intros Hmx. pose proof (binary_round_aux_sign false mx ex lx Hmx) as Hsign.
  destruct (binary_round_aux _ _ _ _ _ _) as [s|s| |s m e]; cbn; try done; by subst.
Qed.

Lemma of_int_not_negative (n : Z) : 0 <= n -> negative (Float.of_int n) = false.
Proof.
  intros Hn. destruct n as [|p|p]; [done| |lia].
  unfold Float.of_int, binary_normalize, binary_round.
  destruct (shl_align _ _ _) as [mz ez].
  apply binary_round_aux_not_negative. lia.
Qed.

Lemma mul_not_negative (x y : spec_float) :
  negative x = false -> negative y = false -> negative (Float.mul x y) = false.
Proof.
  unfold Float.mul.
  destruct x as [sx|[]| |[] mx ex], y as [sy|[]| |[] my ey]; cbn; try done.
  intros _ _. apply binary_round_aux_not_negative. lia.
Qed.

(** Division by a positive number. *)
Lemma div_not_negative (x y : spec_float) my ey :
  negative x = false -> y = S754_finite false my ey ->
  negative (Float.div x y) = false.
Proof.
  intros Hx ->. unfold Float.div.
  destruct x as [sx|[]| |[] mx ex]; cbn [SFdiv xorb negative] in *; try done.
  unfold SFdiv_core_binary.
  set (shift := ex - ey - _).
  set (m' := match shift with Z0 => _ | Zpos _ => _ | Zneg _ => _ end).
  assert (0 <= m') as Hm'.
  { subst m'. destruct shift; [lia| |lia]. apply Z.shiftl_nonneg. lia. }
  pose proof (Z.div_pos m' (Zpos my) Hm' ltac:(lia)) as Hq.
  unfold Z.div in Hq. destruct (Z.div_eucl m' (Zpos my)) as [q r].
  by apply binary_round_aux_not_negative.
Qed.

Lemma to_int_not_negative (x : spec_float) (z : Z) :
  negative x = false -> Float.to_int x = Ok z -> 0 <= z.
Proof.
  destruct x as [s| | |[] m e]; cbn; try done.
  - by intros _ [= <-].
  - intros _ [= <-]. destruct (Z.leb_spec 0 e).
    + apply Z.mul_nonneg_nonneg; [lia|]. apply Z.pow_nonneg. lia.
    + apply Z.div_pos; [lia|]. apply Z.pow_pos_nonneg; lia.
Qed.

Lemma round0_not_negative (x : spec_float) :
  negative x = false -> negative (Float.round0 x) = false.
Proof.
  destruct x as [s|[]| |[] m e]; cbn; try done. intros _.
  destruct (Z.leb_spec 0 e) as [He|He]; [done|].
  assert (0 < 2 ^ (- e)) as Hden by (apply Z.pow_pos_nonneg; lia).
  pose proof (round_half_even_bounds (Zpos m) (2 ^ (- e)) ltac:(lia) Hden) as [Hlow _].
  destruct (Float.round_half_even (Zpos m) (2 ^ (- e))) as [|n|n]; [done| |lia].
  exact (of_int_not_negative (Zpos n) ltac:(lia)).
Qed.

Lemma applicable_figures_not_negative :
  forallb (fun '(_, d) => negb (negative (Float.literal4 d))) applicable_figures_digits = true.
Proof. vm_compute. reflexivity. Qed.

Lemma get_figure_not_negative (percent : Z) (figure : spec_float) :
  ApplicableFigures.get_figure applicable_figures percent = Ok figure ->
  negative figure = false.
Proof.
  rewrite get_figure_unfold.
  set (p := Z.max 150 (Z.min 400 percent)).
  destruct (applicable_figures_digits_dense p) as [d Hd]; [lia|].
  unfold getitem. rewrite (applicable_figures_dict_lookup _ _ Hd). intros [= <-].
  pose proof applicable_figures_not_negative as Hall.
  rewrite forallb_forall in Hall.
  specialize (Hall (p, d) ltac:(by apply list_elem_of_In)). cbn beta iota in Hall.
  by apply negb_true_iff in Hall.
Qed.

(** ** The contributions, continued *)

(** X18: for a household income that is not negative, neither the annual
    nor the monthly contribution is ever negative. *)
Theorem contributions_not_negative (form : Form8962.t) :
  0 <= Form8962.household_income form ->
  (forall annual, Form8962.annual_contribution form = Ok annual -> 0 <= annual) /\
  (forall monthly, Form8962.monthly_contribution form = Ok monthly -> 0 <= monthly).
Proof.
  intros Hincome.
  assert (forall annual, Form8962.annual_contribution form = Ok annual -> 0 <= annual)
    as Hannual.
  { intros annual H. unfold Form8962.annual_contribution in H.
    apply bind_Ok in H as (figure & Hfigure & H).
    unfold Form8962.applicable_figure in Hfigure.
    apply bind_Ok in Hfigure as (percent & _ & Hfigure).
    apply get_figure_not_negative in Hfigure.
    eapply to_int_not_negative; [|exact H].
    apply round0_not_negative, mul_not_negative; [|done].
    by apply of_int_not_negative. }
  split; [exact Hannual|].
  intros monthly H. unfold Form8962.monthly_contribution in H.
  apply bind_Ok in H as (annual & Ha & H).
  apply bind_Ok in H as (quotient & Hquotient & H).
  unfold Float.truediv in Hquotient.
  change (Float.is_zero (Float.of_int 12)) with false in Hquotient.
  injection Hquotient as <-.
  eapply to_int_not_negative; [|exact H].
  apply round0_not_negative.
  eapply div_not_negative; [|reflexivity].
  apply of_int_not_negative. by apply Hannual.
Qed.

Lemma contributions_not_negative_witness :
  (forall annual, Form8962.annual_contribution my_form = Ok annual -> 0 <= annual) /\
  (forall monthly, Form8962.monthly_contribution my_form = Ok monthly -> 0 <= monthly).
Proof. apply (contributions_not_negative my_form). vm_compute. discriminate. Defined.

(** X19: a household at or below 150 percent of the poverty line has the
    applicable figure 0.0000, and whenever its annual contribution can be
    computed it is 0, and so is the monthly contribution. *)
Theorem no_contribution_up_to_150_percent (form : Form8962.t) (percent annual : Z) :
  Form8962.percent_of_poverty_line form = Ok percent ->
  percent <= 150 ->
  Form8962.annual_contribution form = Ok annual ->
  Form8962.applicable_figure form = Ok (Float.literal4 0) /\
  annual = 0 /\
  Form8962.monthly_contribution form = Ok 0.
Proof.
  intros Hpercent Hle Hannual.
  assert (Form8962.applicable_figure form = Ok (S754_zero false)) as Hfigure.
  { unfold Form8962.applicable_figure. rewrite Hpercent.
    change (Ok percent ≫= ?k) with (k percent). cbv beta.
    rewrite get_figure_unfold.
    replace (Z.max 150 (Z.min 400 percent)) with 150 by lia.
    vm_compute. reflexivity. }
  assert (annual = 0) as ->.
  { unfold Form8962.annual_contribution in Hannual. rewrite Hfigure in Hannual.
    change (Ok ?f ≫= ?k) with (k f) in Hannual. cbv beta in Hannual.
    destruct (Float.of_int (Form8962.household_income form)) as [s|s| |s m e];
      cbn in Hannual; congruence. }
  split; [exact Hfigure|]. split; [reflexivity|].
  unfold Form8962.monthly_contribution. rewrite Hannual.
  vm_compute. reflexivity.
Qed.

Lemma no_contribution_up_to_150_percent_witness :
  Form8962.monthly_contribution
    (form_of 4 StateOfResidenceEnum.CONTIGUOUS_48_AND_DC 40000 false None None) = Ok 0.
Proof.
  apply (no_contribution_up_to_150_percent
           (form_of 4 StateOfResidenceEnum.CONTIGUOUS_48_AND_DC 40000 false None None)
           144 0).
  - vm_compute. reflexivity.
  - lia.
  - vm_compute. reflexivity.
Defined.

(** ** How far rounding can go up *)

Lemma shr_fexp_spec (m e : Z) (l : location) :
  0 <= m ->
  let '(mrs, e') := shr_fexp Float.prec Float.emax m e l in
  e' = Z.max e (fexp Float.prec Float.emax (Zdigits2 m + e)) /\
  shr_m mrs = m / 2 ^ (e' - e).
Proof.
  intros Hm. unfold shr_fexp, shr.
  destruct (fexp Float.prec Float.emax (Zdigits2 m + e) - e) as [|p|p] eqn:Hn.
  - split; [lia|]. rewrite shr_record_of_loc_m.
    replace (e - e) with 0 by lia. by rewrite Z.div_1_r.
  - split; [lia|]. rewrite iter_shr_1_m, shr_record_of_loc_m
      by (by rewrite shr_record_of_loc_m).
    f_equal. f_equal. lia.
  - split; [lia|]. rewrite shr_record_of_loc_m.
    replace (e - e) with 0 by lia. by rewrite Z.div_1_r.
Qed.

Lemma round_nearest_even_le (m : Z) (l : location) : round_nearest_even m l <= m + 1.
Proof. destruct l as [|[]]; simpl; try destruct (Z.even m); lia. Qed.

(** A rounded result exceeds the number that was rounded by at most one
    unit of the exponent the format gives to that number. *)
Lemma binary_round_aux_upper (s : bool) (M E : Z) (l : location) s' m'' e'' :
  0 <= M ->
  binary_round_aux Float.prec Float.emax s M E l = S754_finite s' m'' e'' ->
  let e1 := Z.max E (fexp Float.prec Float.emax (Zdigits2 M + E)) in
  e1 <= e'' /\ Zpos m'' * 2 ^ (e'' - E) <= M + 2 ^ (e1 - E).
Proof.
  intros HM. unfold binary_round_aux.
  pose proof (shr_fexp_spec M E l HM) as H1.
  pose proof (shr_fexp_m_bound M E l HM) as [Hm1 _].
  destruct (shr_fexp Float.prec Float.emax M E l) as [mrs' e'].
  cbn [fst] in Hm1. destruct H1 as [He' Hm'].
  set (m1 := round_nearest_even (shr_m mrs') (loc_of_shr_record mrs')).
  assert (0 <= m1) as Hm1nn by (by apply round_nearest_even_nonneg).
  assert (m1 <= shr_m mrs' + 1) as Hm1le by apply round_nearest_even_le.
  pose proof (shr_fexp_spec m1 e' loc_Exact Hm1nn) as H2.
  destruct (shr_fexp Float.prec Float.emax m1 e' loc_Exact) as [mrs'' e2].
  destruct H2 as [He2 Hm2].
  destruct (shr_m mrs'') as [|q|q] eqn:Hq; try discriminate.
  destruct (e2 <=? Float.emax - Float.prec); [|discriminate].
  intros [= _ <- <-]. cbv zeta. rewrite <- He'.
  assert (e' <= e2) as Hle by lia. split; [exact Hle|].
  assert (E <= e') as HE by lia.
  assert (0 < 2 ^ (e2 - e')) as Hp2 by (apply Z.pow_pos_nonneg; lia).
  assert (0 < 2 ^ (e' - E)) as Hp1 by (apply Z.pow_pos_nonneg; lia).
  replace (e2 - E) with ((e2 - e') + (e' - E)) by lia.
  rewrite Z.pow_add_r by lia.
  assert (Zpos q * 2 ^ (e2 - e') <= m1) as Hstep2.
  { rewrite Hm2. rewrite Z.mul_comm. apply Z.mul_div_le. lia. }
  assert (shr_m mrs' * 2 ^ (e' - E) <= M) as Hstep1.
  { rewrite Hm'. rewrite Z.mul_comm. apply Z.mul_div_le. lia. }
  nia.
Qed.

Lemma to_int_below (m : positive) (e E bound : Z) (z : Z) :
  E <= e -> E <= 0 ->
  Zpos m * 2 ^ (e - E) < (bound + 1) * 2 ^ (- E) ->
  Float.to_int (S754_finite false m e) = Ok z ->
  z <= bound.
Proof.
  intros HEe HE Hlt [= <-]. cbn [cond_Zopp].
  assert (0 < 2 ^ (- E)) as HpE by (apply Z.pow_pos_nonneg; lia).
  destruct (Z.leb_spec 0 e) as [He|He].
  - replace (e - E) with (e + - E) in Hlt by lia.
    rewrite Z.pow_add_r in Hlt by lia. nia.
  - assert (0 < 2 ^ (- e)) as Hpe by (apply Z.pow_pos_nonneg; lia).
    assert (2 ^ (- E) = 2 ^ (- e) * 2 ^ (e - E)) as Hsplit
      by (rewrite <- Z.pow_add_r by lia; f_equal; lia).
    assert (0 < 2 ^ (e - E)) as Hp by (apply Z.pow_pos_nonneg; lia).
    pose proof (Z.mul_div_le (Zpos m) (2 ^ (- e)) Hpe) as Hdiv.
    rewrite Hsplit in Hlt.
    apply Z.lt_succ_r. apply (Z.mul_lt_mono_pos_r (2 ^ (- e) * 2 ^ (e - E))); [lia|].
    nia.
Qed.

Lemma to_int_not_positive (s : bool) (x : spec_float) (z : Z) :
  match x with
  | S754_zero _ => True
  | S754_finite true _ _ => True
  | _ => False
  end ->
  Float.to_int x = Ok z -> z <= 0.
Proof.
  destruct x as [s0| | |[] m e]; cbn; try done.
  - by intros _ [= <-].
  - intros _ [= <-]. destruct (Z.leb_spec 0 e).
    + assert (0 <= Zpos m * 2 ^ e); [|lia].
      apply Z.mul_nonneg_nonneg; [lia|]. apply Z.pow_nonneg. lia.
    + assert (0 <= Zpos m / 2 ^ (- e)); [|lia].
      apply Z.div_pos; [lia|]. apply Z.pow_pos_nonneg; lia.
Qed.

Lemma leb_4 (m : positive) (e : Z) :
  Float.leb (S754_finite false m e) (Float.of_int 4) = true ->
  e < -50 \/ (e = -50 /\ Zpos m <= 2 ^ 52).
Proof.
  change (Float.of_int 4) with (S754_finite false 4503599627370496 (-50)).
  unfold Float.leb, SFleb, SFcompare.
  destruct (Z.compare_spec e (-50)) as [->|Hlt|Hgt]; [|by left|done].
  rewrite Pos.compare_cont_spec. cbn [Pos.switch_Eq].
  destruct (Pos.compare_spec m 4503599627370496) as [->|Hlt|Hgt]; try done.
  - intros _. right. split; [done|]. apply Z.le_refl.
  - intros _. right. split; [done|].
    change (2 ^ 52) with (Zpos 4503599627370496).
    apply Pos2Z.pos_le_pos, Pos.lt_le_incl, Hlt.
Qed.

(** The product of a float that is at most 4.0 with 100, once the digits
    after the point are dropped, is at most 400. *)
Lemma percent_at_most_400 (percentage : spec_float) (z : Z) :
  (forall s m e, percentage = S754_finite s m e -> Zpos m < 2 ^ 53) ->
  Float.leb percentage (Float.of_int 4) = true ->
  make_whole_number (Float.mul percentage (Float.of_int 100)) = Ok z ->
  z <= 400.
Proof.
  intros Hbound Hleb. unfold make_whole_number.
  change (Float.of_int 100) with (S754_finite false 7036874417766400 (-46)).
  destruct percentage as [s|s| |s m e]; cbn [Float.mul SFmul]; try done.
  - intros [= <-]. lia.
  - specialize (Hbound s m e eq_refl). unfold Float.mul. cbn [SFmul].
    destruct s; cbn [xorb].
    + (* a negative percentage *)
      intros Hz.
      pose proof (binary_round_aux_sign true
                    (Zpos (m * 7036874417766400)) (e + -46) loc_Exact ltac:(lia)) as Hsign.
      assert (z <= 0); [|lia].
      eapply (to_int_not_positive true); [|exact Hz].
      destruct (binary_round_aux _ _ _ _ _ _) as [s0|s0| |s0 m0 e0]; try done.
      by subst.
    + apply leb_4 in Hleb.
      pose proof (binary_round_aux_sign false
                    (Zpos (m * 7036874417766400)) (e + -46) loc_Exact ltac:(lia)) as Hsign.
      destruct (binary_round_aux _ _ _ _ _ _) as [s0|s0| |s0 m0 e0] eqn:Hround; try done.
      * intros [= <-]. lia.
      * subst s0.
        pose proof (binary_round_aux_upper _ _ _ _ _ _ _ (Pos2Z.is_nonneg _) Hround)
          as Hupper.
        cbv zeta in Hupper. destruct Hupper as [He1 Hupper].
        assert (Zpos (m * 7036874417766400) = Zpos m * (100 * 2 ^ 46)) as HM
          by (rewrite Pos2Z.inj_mul; reflexivity).
        assert (100 * 2 ^ 46 < 2 ^ 53) as HK by reflexivity.
        assert (0 < 2 ^ 46) as HP by reflexivity.
        set (M := Zpos (m * 7036874417766400)) in *.
        set (E := e + -46) in *.
        set (e1 := Z.max E (fexp Float.prec Float.emax (Zdigits2 M + E))) in *.
        assert (0 < M) as HMpos by (subst M; apply Pos2Z.is_pos).
        assert (Zpos m <= 2 ^ (2 - e)) as Hm.
        { destruct Hleb as [Hlt|[-> Hle]]; [|exact Hle].
          assert (2 ^ 53 <= 2 ^ (2 - e)) by (apply Z.pow_le_mono_r; lia).
          generalize dependent (2 ^ 53). intros. lia. }
        assert (M < 2 ^ 106) as HM106.
        { rewrite HM. change (2 ^ 106) with (2 ^ 53 * 2 ^ 53).
          apply Z.mul_lt_mono_nonneg; [apply Pos2Z.is_nonneg|exact Hbound| |exact HK].
          apply Z.mul_nonneg_nonneg; [done|]. apply Z.lt_le_incl, HP. }
        assert (Zdigits2 M <= 106) as Hdig.
        { destruct M as [|pM|pM] eqn:HpM; try done. cbn [Zdigits2].
          by apply digits2_pos_le. }
        assert (e1 <= -43) as He1'.
        { subst e1. unfold fexp, emin, Float.prec, Float.emax. lia. }
        assert (2 ^ (- E) = 2 ^ 46 * 2 ^ (- e)) as HpE.
        { subst E. rewrite <- Z.pow_add_r by lia. f_equal. lia. }
        assert (2 ^ (2 - e) = 4 * 2 ^ (- e)) as Hp2.
        { replace (2 - e) with (2 + - e) by lia. rewrite Z.pow_add_r by lia. reflexivity. }
        assert (0 < 2 ^ (- e)) as HQ by (apply Z.pow_pos_nonneg; lia).
        assert (2 ^ (e1 - E) < 2 ^ (- E)) as Hulp by (apply Z.pow_lt_mono_r; lia).
        apply (to_int_below m0 e0 E 400); [lia|lia|].
        rewrite HM in Hupper. rewrite HpE in *. rewrite Hp2 in Hm.
        generalize dependent (2 ^ 46). generalize dependent (2 ^ (- e)).
        generalize dependent (2 ^ (e1 - E)). generalize dependent (2 ^ (e0 - E)).
        generalize dependent (Zpos m). generalize dependent (Zpos m0).
        clear. intros. nia.
Qed.

(** ** The percentage of the poverty line, continued *)

Lemma div_not_negative_gen (x y : spec_float) :
  negative x = false -> negative y = false -> Float.is_zero y = false ->
  negative (Float.div x y) = false.
Proof.
  intros Hx Hy Hzero.
  destruct y as [sy|[]| |[] my ey]; try done.
  - by destruct x as [sx|[]| |[] mx ex].
  - by destruct x as [sx|[]| |[] mx ex].
  - by eapply div_not_negative.
Qed.

(** X20: the percentage of the poverty line is never above 401, so it is
    always within the range that [get_figure] is annotated with; and it
    is not negative when the household income is not negative and the tax
    family size is at least 1. *)
Theorem percent_of_poverty_line_range (form : Form8962.t) (percent : Z) :
  Form8962.percent_of_poverty_line form = Ok percent ->
  percent <= 401 /\
  (0 <= Form8962.household_income form -> 1 <= Form8962.tax_family_size form ->
   0 <= percent).
Proof.
  intros H. unfold Form8962.percent_of_poverty_line in H.
  apply bind_Ok in H as (line & Hline & H).
  apply bind_Ok in H as (percentage & Hpercentage & H).
  unfold Float.truediv in Hpercentage.
  destruct (Float.is_zero (Float.of_int line)) eqn:Hzero; [done|].
  injection Hpercentage as <-.
  set (percentage := Float.div (Float.of_int (Form8962.household_income form))
                               (Float.of_int line)) in *.
  split.
  - destruct (Float.leb percentage (Float.of_int 4)) eqn:Hleb.
    + assert (percent <= 400); [|lia].
      eapply (percent_at_most_400 percentage); [|exact Hleb|exact H].
      intros s m e. apply div_mantissa.
    + injection H as <-. lia.
  - intros Hincome Hsize.
    assert (0 < line) as Hpositive.
    { unfold Form8962.poverty_line in Hline.
      rewrite get_poverty_rate_linear in Hline. injection Hline as <-.
      destruct (Form8962.state_of_residence form); lia. }
    assert (negative percentage = false) as Hsign.
    { apply div_not_negative_gen; [| |exact Hzero]; apply of_int_not_negative; lia. }
    destruct (Float.leb percentage (Float.of_int 4)).
    + eapply to_int_not_negative; [|exact H].
      apply mul_not_negative; [exact Hsign|]. by apply of_int_not_negative.
    + injection H as <-. lia.
Qed.

Lemma percent_of_poverty_line_range_witness :
  Form8962.percent_of_poverty_line my_form = Ok 278 /\ 278 <= 401 /\ 0 <= 278.
Proof.
  assert (Form8962.percent_of_poverty_line my_form = Ok 278) as Hpercent
    by (vm_compute; reflexivity).
  destruct (percent_of_poverty_line_range my_form 278 Hpercent) as [Hupper Hlower].
  split; [exact Hpercent|]. split; [exact Hupper|].
  apply Hlower; vm_compute; discriminate.
Defined.

(** ** Construction of a form, continued *)



(** ** No overflow *)

Lemma Zdigits2_le (a k : Z) : 0 <= a < 2 ^ k -> 0 <= k -> Zdigits2 a <= k.
Proof.
  intros [Ha Hlt] Hk. destruct a as [|p|p]; [done| |lia].
  cbn [Zdigits2]. by apply digits2_pos_le.
Qed.

Lemma div_pow2_digits (M n : Z) :
  0 <= M -> 0 <= n -> Zdigits2 (M / 2 ^ n) <= Z.max 0 (Zdigits2 M - n).
Proof.
  intros HM Hn.
  pose proof (Zdigits2_bound M HM) as Hdig. pose proof (Zdigits2_nonneg M) as Hnn.
  assert (0 < 2 ^ n) by (apply Z.pow_pos_nonneg; lia).
  assert (0 <= M / 2 ^ n) by (apply Z.div_pos; lia).
  apply Zdigits2_le; [|lia]. split; [done|].
  apply Z.div_lt_upper_bound; [done|].
  rewrite <- Z.pow_add_r by lia.
  eapply Z.lt_le_trans; [exact Hdig|]. apply Z.pow_le_mono_r; lia.
Qed.

(** The exponent that rounding ends with. *)
Lemma binary_round_aux_bounded (s : bool) (M E : Z) (l : location) (B : Z) :
  0 <= M ->
  Z.max E (Zdigits2 M + E - 52) <= B -> -1074 <= B <= 971 ->
  bounded B (binary_round_aux Float.prec Float.emax s M E l).
Proof.
  intros HM HB HBrange.
  pose proof (binary_round_aux_sign s M E l HM) as Hsign.
  destruct (binary_round_aux Float.prec Float.emax s M E l) as [s0|s0| |s0 m0 e0] eqn:Hround;
    [done| |done|].
  all: revert Hround; unfold binary_round_aux.
  all: pose proof (shr_fexp_spec M E l HM) as H1.
  all: pose proof (shr_fexp_m_bound M E l HM) as [Hm1 _].
  all: destruct (shr_fexp Float.prec Float.emax M E l) as [mrs' e'].
  all: cbn [fst] in Hm1; destruct H1 as [He' Hm'].
  all: set (m1 := round_nearest_even (shr_m mrs') (loc_of_shr_record mrs')).
  all: assert (0 <= m1) as Hm1nn by (by apply round_nearest_even_nonneg).
  all: assert (m1 <= shr_m mrs' + 1) as Hm1le by apply round_nearest_even_le.
  all: pose proof (shr_fexp_spec m1 e' loc_Exact Hm1nn) as H2.
  all: pose proof (shr_fexp_m_bound m1 e' loc_Exact Hm1nn) as [_ Hm2lt].
  all: destruct (shr_fexp Float.prec Float.emax m1 e' loc_Exact) as [mrs'' e2].
  all: cbn [fst] in Hm2lt; destruct H2 as [He2 _].
  all: assert (e2 <= B) as Hfinal.
  1, 3: (assert (E <= e') as HEe' by lia;
         pose proof (div_pow2_digits M (e' - E) HM ltac:(lia)) as Hd;
         rewrite <- Hm' in Hd;
         pose proof (Zdigits2_bound (shr_m mrs') Hm1) as Hdig';
         pose proof (Zdigits2_nonneg (shr_m mrs')) as Hnn';
         assert (Zdigits2 m1 <= Zdigits2 (shr_m mrs') + 1) as Hdm1
           by (apply Zdigits2_le; [|lia]; split; [done|];
               rewrite Z.pow_add_r by lia; change (2 ^ 1) with 2; lia);
         revert He' He2; unfold fexp, emin, Float.prec, Float.emax; lia).
  - destruct (shr_m mrs'') as [|q|q]; try discriminate.
    destruct (Z.leb_spec e2 (Float.emax - Float.prec)) as [_|Hgt]; [discriminate|].
    unfold Float.emax, Float.prec in Hgt. lia.
  - destruct (shr_m mrs'') as [|q|q] eqn:Hq; try discriminate.
    destruct (e2 <=? Float.emax - Float.prec); [|discriminate].
    intros [= _ <- <-]. split; [lia|exact Hfinal].
Qed.

Lemma of_int_bounded (n : Z) (k : Z) :
  Z.abs n < 2 ^ k -> 0 <= k <= 1000 -> bounded (Z.max 0 (k - 52)) (Float.of_int n).
Proof.
  intros Hn Hk.
  assert (forall s p, Zpos p < 2 ^ k ->
            bounded (Z.max 0 (k - 52)) (binary_round Float.prec Float.emax s p 0)) as Hround.
  { intros s p Hp. unfold binary_round.
    pose proof (digits2_pos_le p k Hp) as Hd.
    rewrite Z.add_0_r. unfold shl_align.
    destruct (fexp Float.prec Float.emax (Zpos (digits2_pos p)) - 0) as [|d|d] eqn:Hshift.
    - apply binary_round_aux_bounded; [lia| |lia]. cbn [Zdigits2]. lia.
    - apply binary_round_aux_bounded; [lia| |lia]. cbn [Zdigits2]. lia.
    - destruct (iter_xO_spec p d) as [_ Hdig].
      apply binary_round_aux_bounded; [lia| |lia]. cbn [Zdigits2]. rewrite Hdig.
      rewrite Pos2Z.inj_add.
      revert Hshift. unfold fexp, emin, Float.prec, Float.emax. lia. }
  destruct n as [|p|p]; [done|apply Hround; lia|apply Hround; lia].
Qed.

Lemma mul_bounded (x y : spec_float) (Bx By : Z) :
  bounded Bx x -> bounded By y -> -1128 <= Bx + By <= 917 ->
  bounded (Bx + By + 54) (Float.mul x y).
Proof.
  unfold Float.mul.
  destruct x as [sx|sx| |sx mx ex], y as [sy|sy| |sy my ey]; cbn [bounded SFmul]; try done.
  intros [Hmx Hex] [Hmy Hey] HB.
  apply binary_round_aux_bounded; [lia| |lia].
  assert (Zdigits2 (Zpos (mx * my)) <= 106); [|lia].
  apply Zdigits2_le; [|lia]. split; [lia|].
  rewrite Pos2Z.inj_mul. change (2 ^ 106) with (2 ^ 53 * 2 ^ 53).
  apply Z.mul_lt_mono_nonneg; lia.
Qed.

(** Division by a finite number that is not zero. *)
Lemma div_bounded (x : spec_float) (sy : bool) (my : positive) (ey Bx Ly : Z) :
  bounded Bx x -> Ly <= ey -> -1128 <= Bx - Ly <= 917 ->
  bounded (Bx - Ly + 54) (Float.div x (S754_finite sy my ey)).
Proof.
  unfold Float.div.
  destruct x as [sx|sx| |sx mx ex]; cbn [bounded SFdiv]; try done.
  intros [Hmx Hex] Hey HB. unfold SFdiv_core_binary.
  set (e' := Z.min _ (ex - ey)).
  assert (e' <= ex - ey) as He' by (subst e'; lia).
  set (m' := match ex - ey - e' with Z0 => _ | Zpos _ => _ | Zneg _ => _ end).
  assert (0 <= m' < 2 ^ (53 + (ex - ey - e'))) as Hm'.
  { subst m'. destruct (ex - ey - e') as [|p|p] eqn:Hs; try lia.
    rewrite Z.shiftl_mul_pow2 by lia. rewrite Z.pow_add_r by lia.
    assert (0 < 2 ^ Zpos p) by (apply Z.pow_pos_nonneg; lia).
    generalize dependent (2 ^ 53). generalize dependent (2 ^ Zpos p). intros. nia. }
  pose proof (Z.div_pos m' (Zpos my) (proj1 Hm') ltac:(lia)) as Hq.
  assert (m' / Zpos my <= m') as Hqle.
  { apply Z.div_le_upper_bound; [lia|]. destruct Hm' as [Hm'0 _].
    pose proof (Pos2Z.is_pos my) as Hmy. clear -Hm'0 Hmy. nia. }
  unfold Z.div in Hq, Hqle. destruct (Z.div_eucl m' (Zpos my)) as [q r].
  apply binary_round_aux_bounded; [done| |lia].
  assert (Zdigits2 q <= 53 + (ex - ey - e')); [|lia].
  apply Zdigits2_le; lia.
Qed.

Lemma to_int_bounded (x : spec_float) (B : Z) :
  bounded B x -> exists z, Float.to_int x = Ok z.
Proof. destruct x; cbn; try done; eauto. Qed.

Lemma of_int_exact (n : Z) :
  0 < n < 2 ^ 53 ->
  exists m e, Float.of_int n = S754_finite false m e /\ Zpos m < 2 ^ 53 /\ -52 <= e <= 0.
Proof.
  intros [Hpos Hlt]. destruct n as [|p|p]; try lia.
  pose proof (digits2_pos_le p 53 Hlt) as Hd.
  pose proof (digits2_pos_bounds p) as Hdb.
  unfold Float.of_int, binary_normalize, binary_round.
  rewrite Z.add_0_r, fexp_small by lia. unfold shl_align.
  destruct (Zpos (digits2_pos p) - 53 - 0) as [|k|k] eqn:Hk; try lia.
  - rewrite binary_round_aux_exact by lia. eexists _, _. split; [reflexivity|]. lia.
  - destruct (iter_xO_spec p k) as [Hv Hdig].
    rewrite binary_round_aux_exact by lia.
    eexists _, _. split; [reflexivity|]. split; [|lia].
    pose proof (digits2_pos_bounds (Pos.iter xO p k)) as Hb.
    replace (digits2_pos (Pos.iter xO p k)) with 53%positive in Hb by lia. lia.
Qed.

Lemma to_int_round0_bounded (x : spec_float) (B : Z) :
  bounded B x -> 0 <= B ->
  exists z, Float.to_int (Float.round0 x) = Ok z /\ Z.abs z < 2 ^ (53 + B).
Proof.
  intros Hx HB.
  assert (0 < 2 ^ (53 + B)) by (apply Z.pow_pos_nonneg; lia).
  destruct x as [s| | |s m e]; try done.
  - exists 0. split; [done|]. cbn. lia.
  - destruct Hx as [Hm He]. cbn [Float.round0].
    destruct (Z.leb_spec 0 e) as [Hpos|Hneg].
    + eexists. split; [cbn; rewrite (proj2 (Z.leb_le 0 e) Hpos); reflexivity|].
      assert (Z.abs (cond_Zopp s (Zpos m * 2 ^ e)) = Zpos m * 2 ^ e) as ->.
      { assert (0 <= Zpos m * 2 ^ e)
          by (apply Z.mul_nonneg_nonneg; [lia|apply Z.pow_nonneg; lia]).
        destruct s; cbn; lia. }
      rewrite Z.pow_add_r by lia.
      assert (0 < 2 ^ e <= 2 ^ B)
        by (split; [apply Z.pow_pos_nonneg; lia|apply Z.pow_le_mono_r; lia]).
      generalize dependent (2 ^ 53). generalize dependent (2 ^ e).
      generalize dependent (2 ^ B). intros. nia.
    + assert (0 < 2 ^ (- e)) as Hden by (apply Z.pow_pos_nonneg; lia).
      assert (2 <= 2 ^ (- e)) as Hden2.
      { change 2 with (2 ^ 1) at 1. apply Z.pow_le_mono_r; lia. }
      pose proof (round_half_even_bounds (Zpos m) (2 ^ (- e)) ltac:(lia) Hden) as Hrange.
      assert (Zpos m / 2 ^ (- e) < 2 ^ 52) as Hq.
      { apply Z.div_lt_upper_bound; [lia|].
        change (2 ^ 53) with (2 * 2 ^ 52) in Hm.
        generalize dependent (2 ^ 52). generalize dependent (2 ^ (- e)). intros. nia. }
      assert (2 ^ 53 <= 2 ^ (53 + B)) as Hmono by (apply Z.pow_le_mono_r; lia).
      change (2 ^ 53) with (2 * 2 ^ 52) in Hmono.
      destruct (Float.round_half_even (Zpos m) (2 ^ (- e))) as [|n|n] eqn:Hn.
      * exists 0. split; [done|]. cbn. lia.
      * exists (cond_Zopp s (Zpos n)). split.
        -- apply to_int_of_int. change (2 ^ 53) with (2 * 2 ^ 52). lia.
        -- assert (Z.abs (cond_Zopp s (Zpos n)) = Zpos n) as -> by (destruct s; cbn; lia).
           lia.
      * lia.
Qed.

Lemma applicable_figures_bounded :
  forallb (fun '(_, d) =>
             match Float.literal4 d with
             | S754_zero _ => true
             | S754_finite _ m e => (Zpos m <? 2 ^ 53) && (e <=? 0)
             | _ => false
             end) applicable_figures_digits = true.
Proof. vm_compute. reflexivity. Qed.

Lemma get_figure_bounded (percent : Z) :
  exists figure,
    ApplicableFigures.get_figure applicable_figures percent = Ok figure /\
    bounded 0 figure.
Proof.
  rewrite get_figure_unfold.
  set (p := Z.max 150 (Z.min 400 percent)).
  destruct (applicable_figures_digits_dense p) as [d Hd]; [lia|].
  exists (Float.literal4 d). unfold getitem.
  rewrite (applicable_figures_dict_lookup _ _ Hd). split; [reflexivity|].
  pose proof applicable_figures_bounded as Hall.
  rewrite forallb_forall in Hall.
  specialize (Hall (p, d) ltac:(by apply list_elem_of_In)). cbn beta iota in Hall.
  destruct (Float.literal4 d) as [s|s| |s m e]; try done. cbn.
  apply andb_true_iff in Hall as [Hm He].
  split; [by apply Z.ltb_lt|by apply Z.leb_le].
Qed.

(** ** The derivation chain as a whole *)

(** X22: for a tax family of at least one person (and fewer than 2^32)
    and a household income from 0 to below 2^53 dollars, the poverty line,
    the percentage of the poverty line, the applicable figure and the
    annual and the monthly contribution are all computed: none of them
    raises, whatever the residency. *)
Theorem derivation_never_raises (form : Form8962.t) :
  0 <= Form8962.household_income form < 2 ^ 53 ->
  1 <= Form8962.tax_family_size form < 2 ^ 32 ->
  exists line percent figure annual monthly,
    Form8962.poverty_line form = Ok line /\
    Form8962.percent_of_poverty_line form = Ok percent /\
    Form8962.applicable_figure form = Ok figure /\
    Form8962.annual_contribution form = Ok annual /\
    Form8962.monthly_contribution form = Ok monthly.
Proof.
  intros Hincome Hsize.
  (* the poverty line *)
  assert (exists line, Form8962.poverty_line form = Ok line /\ 0 < line < 2 ^ 53)
    as (line & Hline & Hrange).
  { unfold Form8962.poverty_line. rewrite get_poverty_rate_linear.
    eexists. split; [reflexivity|].
    change (2 ^ 32) with 4294967296 in Hsize.
    change (2 ^ 53) with 9007199254740992.
    destruct (Form8962.state_of_residence form); lia. }
  destruct (of_int_exact line Hrange) as (my & ey & Hy & Hmy & Hey).
  pose proof (of_int_bounded (Form8962.household_income form) 53 ltac:(lia) ltac:(lia))
    as Hx.
  change (Z.max 0 (53 - 52)) with 1 in Hx.
  (* the percentage *)
  assert (exists percent, Form8962.percent_of_poverty_line form = Ok percent)
    as [percent Hpercent].
  { unfold Form8962.percent_of_poverty_line. rewrite Hline.
    change (Ok line ≫= ?k) with (k line). cbv beta.
    unfold Float.truediv. rewrite Hy. cbn [Float.is_zero].
    change (Ok ?q ≫= ?k) with (k q). cbv beta.
    destruct (Float.leb _ _); [|by eexists].
    apply (to_int_bounded _ (1 - -52 + 54 + -46 + 54)).
    apply mul_bounded; [|by split|lia].
    apply div_bounded; [exact Hx|lia|lia]. }
  (* the applicable figure *)
  destruct (get_figure_bounded percent) as (figure & Hfigure & Hbounded).
  assert (Form8962.applicable_figure form = Ok figure) as Happlicable.
  { unfold Form8962.applicable_figure. rewrite Hpercent. exact Hfigure. }
  (* the annual contribution *)
  destruct (to_int_round0_bounded
              (Float.mul (Float.of_int (Form8962.household_income form)) figure)
              (1 + 0 + 54)) as (annual & Hannual & Habs);
    [apply mul_bounded; [exact Hx|exact Hbounded|lia]|lia|].
  assert (Form8962.annual_contribution form = Ok annual) as Hcontribution.
  { unfold Form8962.annual_contribution. rewrite Happlicable. exact Hannual. }
  (* the monthly contribution *)
  pose proof (of_int_bounded annual (53 + (1 + 0 + 54)) Habs ltac:(lia)) as Ha.
  destruct (to_int_round0_bounded
              (Float.div (Float.of_int annual) (Float.of_int 12))
              (Z.max 0 (53 + (1 + 0 + 54) - 52) - -49 + 54)) as (monthly & Hmonthly & _).
  { change (Float.of_int 12) with (S754_finite false 6755399441055744 (-49)).
    apply div_bounded; [exact Ha|lia|lia]. }
  { lia. }
  exists line, percent, figure, annual, monthly.
  split; [exact Hline|]. split; [exact Hpercent|]. split; [exact Happlicable|].
  split; [exact Hcontribution|].
  unfold Form8962.monthly_contribution. rewrite Hcontribution.
  change (Ok annual ≫= ?k) with (k annual). cbv beta.
  unfold Float.truediv.
  change (Float.is_zero (Float.of_int 12)) with false. cbv iota.
  exact Hmonthly.
Qed.

Lemma derivation_never_raises_witness :
  exists line percent figure annual monthly,
    Form8962.poverty_line exactly_230_percent = Ok line /\
    Form8962.percent_of_poverty_line exactly_230_percent = Ok percent /\
    Form8962.applicable_figure exactly_230_percent = Ok figure /\
    Form8962.annual_contribution exactly_230_percent = Ok annual /\
    Form8962.monthly_contribution exactly_230_percent = Ok monthly.
Proof.
  apply (derivation_never_raises exactly_230_percent);
    split; vm_compute; first [reflexivity|discriminate].
Defined.
